(** * Receipt generator: the amount writer and the receipt layout engine

    A shallow embedding of [valor_por_extenso] and
    [gerar_recibo_pdf_memoria] of [recibo_web_app.py], with the Python
    values they compute on: strings as lists of code points, the numeric
    tower (unbounded [int], binary64 [float]), exceptions as an error
    result, the receipt dictionary as a finite map and the reportlab
    canvas as a trace of drawing operations. *)

From Stdlib Require Import ZArith List Ascii String Bool Lia DecimalString.
From Equations Require Import Equations.
From stdpp Require Import base list strings gmap.

Local Open Scope Z_scope.

(** ** Strings

    A Python [str] is a sequence of Unicode code points. *)

Abbreviation pystr := (list N).

(** Literals are written as Rocq strings, whose bytes are the UTF-8
    encoding of the text, and decoded to code points. *)
Fixpoint utf8_decode (bs : list N) : pystr :=
  match bs with
  | [] => []
  | b :: r =>
      if (b <? 128)%N then b :: utf8_decode r
      else
        match r with
        | [] => []
        | c :: r1 =>
            if (b <? 224)%N
            then ((b - 192) * 64 + (c - 128))%N :: utf8_decode r1
            else
              match r1 with
              | [] => []
              | c1 :: r2 =>
                  ((b - 224) * 4096 + (c - 128) * 64 + (c1 - 128))%N
                    :: utf8_decode r2
              end
        end
  end.

Definition py (s : string) : pystr :=
  utf8_decode (map N_of_ascii (list_ascii_of_string s)).

(** ** Exceptions *)

Inductive exn : Set :=
| ValueError
| OverflowError
| KeyError
| ZeroDivisionError.

Inductive result (A : Type) : Type :=
| Ok (a : A)
| Raise (x : exn).

Arguments Ok {A} a.
Arguments Raise {A} x.

(** ** Floats

    A Python [float] is an IEEE 754 binary64 number.  A finite one is kept
    as its sign and its exact magnitude [m * 2^e], in the format's own
    form: [0 <= m < 2^53], [-1074 <= e <= 971], and [2^52 <= m] unless
    [e = -1074].  Every operation computes the exact rational result and
    rounds it to the nearest such number, ties to the even significand. *)

Inductive float : Set :=
| NaN
| Inf (neg : bool)
| Fin (neg : bool) (m e : Z).

Definition prec : Z := 53.
Definition emin : Z := -1074.
Definition emax : Z := 971.

(** [n / d >= 2^l], for [n >= 0] and [d > 0]. *)
Definition ratio_ge_pow2 (n d l : Z) : bool :=
  if 0 <=? l then d * 2 ^ l <=? n else d <=? n * 2 ^ (- l).

(** [floor (log2 (n / d))], for [n > 0] and [d > 0]. *)
Definition ratio_log2 (n d : Z) : Z :=
  let l := Z.log2 n - Z.log2 d in
  if ratio_ge_pow2 n d l then l else l - 1.

(** The integer nearest to [a / b], ties to even, for [a >= 0], [b > 0]. *)
Definition div_half_even (a b : Z) : Z :=
  let q := a / b in
  match 2 * (a mod b) ?= b with
  | Lt => q
  | Gt => q + 1
  | Eq => if Z.even q then q else q + 1
  end.

(** Rounding of the magnitude [n / d] with sign [neg]. *)
Definition round_ratio (neg : bool) (n d : Z) : float :=
  if n =? 0 then Fin neg 0 emin
  else
    let e := Z.max (ratio_log2 n d - (prec - 1)) emin in
    let m := if 0 <=? e then div_half_even n (d * 2 ^ e)
             else div_half_even (n * 2 ^ (- e)) d in
    let e1 := if m =? 2 ^ prec then e + 1 else e in
    let m1 := if m =? 2 ^ prec then 2 ^ (prec - 1) else m in
    if e1 >? emax then Inf neg else Fin neg m1 e1.

(** The exact magnitude of a finite float as a fraction. *)
Definition mag_num (m e : Z) : Z := if 0 <=? e then m * 2 ^ e else m.
Definition mag_den (e : Z) : Z := if 0 <=? e then 1 else 2 ^ (- e).

(** [float(i)] for an [int]. *)
Definition float_of_int (i : Z) : float :=
  round_ratio (i <? 0) (Z.abs i) 1.

Definition float_neg (x : float) : float :=
  match x with
  | NaN => NaN
  | Inf s => Inf (negb s)
  | Fin s m e => Fin (negb s) m e
  end.

(** The signed numerator of a finite float over [mag_den e]. *)
Definition signed_num (s : bool) (m e : Z) : Z :=
  if s then - mag_num m e else mag_num m e.

Definition float_add (x y : float) : float :=
  match x, y with
  | NaN, _ | _, NaN => NaN
  | Inf s, Inf t => if eqb s t then Inf s else NaN
  | Inf s, Fin _ _ _ => Inf s
  | Fin _ _ _, Inf t => Inf t
  | Fin s m e, Fin t k f =>
      let z := signed_num s m e * mag_den f + signed_num t k f * mag_den e in
      if z =? 0 then Fin (s && t) 0 emin
      else round_ratio (z <? 0) (Z.abs z) (mag_den e * mag_den f)
  end.

Definition float_sub (x y : float) : float := float_add x (float_neg y).

Definition float_mul (x y : float) : float :=
  match x, y with
  | NaN, _ | _, NaN => NaN
  | Inf s, Inf t => Inf (xorb s t)
  | Inf s, Fin t k _ => if k =? 0 then NaN else Inf (xorb s t)
  | Fin s m _, Inf t => if m =? 0 then NaN else Inf (xorb s t)
  | Fin s m e, Fin t k f =>
      round_ratio (xorb s t) (mag_num m e * mag_num k f) (mag_den e * mag_den f)
  end.

(** Python raises [ZeroDivisionError] on a zero divisor. *)
Definition float_div (x y : float) : result float :=
  match x, y with
  | _, Fin _ 0 _ => Raise ZeroDivisionError
  | NaN, _ | _, NaN => Ok NaN
  | Inf s, Inf t => Ok NaN
  | Inf s, Fin t _ _ => Ok (Inf (xorb s t))
  | Fin s _ _, Inf t => Ok (Fin (xorb s t) 0 emin)
  | Fin s m e, Fin t k f =>
      Ok (round_ratio (xorb s t) (mag_num m e * mag_den f) (mag_den e * mag_num k f))
  end.

(** [float(i)]: the conversion raises when the integer is beyond the
    format's range. *)
Definition float_of_int_checked (i : Z) : result float :=
  match float_of_int i with
  | Inf _ => Raise OverflowError
  | x => Ok x
  end.

(** [int(x)]: truncation toward zero. *)
Definition int_of_float (x : float) : result Z :=
  match x with
  | NaN => Raise ValueError
  | Inf _ => Raise OverflowError
  | Fin s m e =>
      let q := mag_num m e / mag_den e in
      Ok (if s then - q else q)
  end.

(** [round(x)] with one argument: the nearest integer, ties to even. *)
Definition round_float (x : float) : result Z :=
  match x with
  | NaN => Raise ValueError
  | Inf _ => Raise OverflowError
  | Fin s m e =>
      let q := div_half_even (mag_num m e) (mag_den e) in
      Ok (if s then - q else q)
  end.

(** ** The error monad *)

#[global] Instance result_ret : MRet result := fun A a => Ok a.

#[global] Instance result_bind : MBind result := fun A B k r =>
  match r with
  | Ok a => k a
  | Raise x => Raise x
  end.

(** ** Numbers: [int] and [float] with Python's mixed arithmetic *)

Inductive num : Set :=
| Int (i : Z)
| Float (x : float).

Definition as_float (a : num) : result float :=
  match a with
  | Int i => float_of_int_checked i
  | Float x => Ok x
  end.

Definition num_arith (fi : Z -> Z -> Z) (ff : float -> float -> float)
    (a b : num) : result num :=
  match a, b with
  | Int i, Int j => Ok (Int (fi i j))
  | _, _ =>
      x ← as_float a; y ← as_float b; Ok (Float (ff x y))
  end.

Definition num_add : num -> num -> result num := num_arith Z.add float_add.
Definition num_sub : num -> num -> result num := num_arith Z.sub float_sub.
Definition num_mul : num -> num -> result num := num_arith Z.mul float_mul.

(** [a / b] is true division: the result is a float also for two ints. *)
Definition num_truediv (a b : num) : result num :=
  x ← as_float a; y ← as_float b; q ← float_div x y; Ok (Float q).

(** [int(a)] and [round(a)]. *)
Definition num_int (a : num) : result Z :=
  match a with
  | Int i => Ok i
  | Float x => int_of_float x
  end.

Definition num_round (a : num) : result Z :=
  match a with
  | Int i => Ok i
  | Float x => round_float x
  end.

(** ** String helpers *)

(** [sep.join(parts)]. *)
Fixpoint join (sep : pystr) (parts : list pystr) : pystr :=
  match parts with
  | [] => []
  | [p] => p
  | p :: rest => p ++ sep ++ join sep rest
  end.

(** * AmountWriter: [valor_por_extenso] *)

Section AmountWriter.

(** Two collaborators that are not code of the program: the builtin
    [float] applied to a string ([None] when it raises) and the
    [num2words] library called with [lang='pt_BR']. *)
Variable float_of_str : pystr -> option float.
Variable num2words : Z -> result pystr.

(** [inteiro = int(v)]. *)
Definition parte_inteira (v : float) : result Z := int_of_float v.

(** [centavos = int(round((v - inteiro) * 100))]. *)
Definition parte_centavos (v : float) (inteiro : Z) : result Z :=
  diff ← num_sub (Float v) (Int inteiro);
  prod ← num_mul diff (Int 100);
  r ← num_round prod;
  num_int (Int r).

(** The list [partes] after the two conditional appends. *)
Definition partes_de (inteiro centavos : Z) : result (list pystr) :=
  partes ← (if 0 <? inteiro then
              ext ← num2words inteiro;
              let moeda := if inteiro =? 1 then py "real" else py "reais" in
              Ok [ext ++ py " " ++ moeda]
            else Ok []);
  if 0 <? centavos then
    extc ← num2words centavos;
    let cent := if centavos =? 1 then py "centavo" else py "centavos" in
    Ok (partes ++ [extc ++ py " " ++ cent])
  else Ok partes.

Definition valor_por_extenso (value : pystr) : result pystr :=
  match float_of_str value with
  | None => Ok []
  | Some v =>
      inteiro ← parte_inteira v;
      centavos ← parte_centavos v inteiro;
      partes ← partes_de inteiro centavos;
      match partes with
      | [] => Ok (py "zero reais")
      | _ => Ok (join (py " e ") partes)
      end
  end.

End AmountWriter.

(** ** The collaborators on plain input

    [float_ascii] reads what the builtin [float] reads when the text is
    ASCII: surrounding blanks, a sign, then [inf], [infinity], [nan] in
    any case or a decimal number with optional fraction and exponent,
    where single underscores may separate digits. *)

Definition is_space (c : N) : bool :=
  ((9 <=? c) && (c <=? 13) || (28 <=? c) && (c <=? 32))%N.

Fixpoint lstrip (s : pystr) : pystr :=
  match s with
  | c :: r => if is_space c then lstrip r else s
  | [] => []
  end.

Definition strip (s : pystr) : pystr := rev (lstrip (rev (lstrip s))).

Definition digit_of (c : N) : option Z :=
  if ((48 <=? c) && (c <=? 57))%N then Some (Z.of_N c - 48) else None.

Definition lower (c : N) : N :=
  if ((65 <=? c) && (c <=? 90))%N then (c + 32)%N else c.

(** [digit (["_"] digit)*]: the digits read and the rest of the text. *)
Fixpoint digitpart (s : pystr) : list Z * pystr :=
  match s with
  | [] => ([], [])
  | c :: r =>
      match digit_of c with
      | None => ([], s)
      | Some dg =>
          match r with
          | [] => ([dg], [])
          | u :: r1 =>
              if (u =? 95)%N then
                match r1 with
                | c1 :: _ =>
                    match digit_of c1 with
                    | Some _ => let '(ds, rest) := digitpart r1 in (dg :: ds, rest)
                    | None => ([dg], r)
                    end
                | [] => ([dg], r)
                end
              else let '(ds, rest) := digitpart r in (dg :: ds, rest)
          end
      end
  end.

Definition digits_value (ds : list Z) : Z :=
  fold_left (fun acc dg => 10 * acc + dg) ds 0.

(** The float nearest to [digits * 10^x]. *)
Definition float_of_decimal (neg : bool) (digits : Z) (x : Z) : float :=
  if 0 <=? x then round_ratio neg (digits * 10 ^ x) 1
  else round_ratio neg digits (10 ^ (- x)).

Definition read_sign (s : pystr) : bool * pystr :=
  match s with
  | c :: r => if (c =? 45)%N then (true, r)
              else if (c =? 43)%N then (false, r) else (false, s)
  | [] => (false, [])
  end.

(** [("e" | "E") [sign] digitpart] up to the end of the text. *)
Definition read_exponent (s : pystr) : option Z :=
  match s with
  | [] => Some 0
  | c :: r =>
      if (lower c =? 101)%N then
        let '(neg, r1) := read_sign r in
        match digitpart r1 with
        | ((_ :: _) as ds, []) =>
            Some (if neg then - digits_value ds else digits_value ds)
        | _ => None
        end
      else None
  end.

Definition float_ascii (value : pystr) : option float :=
  let '(neg, body) := read_sign (strip value) in
  let word := map lower body in
  if bool_decide (word = py "inf") || bool_decide (word = py "infinity")
  then Some (Inf neg)
  else if bool_decide (word = py "nan") then Some NaN
  else
    let '(ds, r) := digitpart body in
    let '(fs, r1) :=
      match r with
      | c :: r0 => if (c =? 46)%N then digitpart r0 else ([], r)
      | [] => ([], [])
      end in
    match ds, fs with
    | [], [] => None
    | _, _ =>
        match read_exponent r1 with
        | Some x =>
            Some (float_of_decimal neg (digits_value (ds ++ fs))
                    (x - Z.of_nat (length fs)))
        | None => None
        end
    end.

(** [num2words_ate_999] gives the cardinals of [num2words(n, lang='pt_BR')]
    for [0 <= n <= 999]; it stands for the library in the examples, which
    stay within this range. *)

Definition unidades : list string :=
  ["zero"; "um"; "dois"; "três"; "quatro"; "cinco"; "seis"; "sete"; "oito";
   "nove"; "dez"; "onze"; "doze"; "treze"; "catorze"; "quinze"; "dezesseis";
   "dezessete"; "dezoito"; "dezenove"]%string.

Definition dezenas : list string :=
  ["vinte"; "trinta"; "quarenta"; "cinquenta"; "sessenta"; "setenta";
   "oitenta"; "noventa"]%string.

Definition centenas : list string :=
  ["cento"; "duzentos"; "trezentos"; "quatrocentos"; "quinhentos";
   "seiscentos"; "setecentos"; "oitocentos"; "novecentos"]%string.

Definition palavra (tabela : list string) (i : Z) : pystr :=
  py (nth (Z.to_nat i) tabela EmptyString).

Definition cardinal_ate_99 (n : Z) : pystr :=
  if n <? 20 then palavra unidades n
  else if n mod 10 =? 0 then palavra dezenas (n / 10 - 2)
  else palavra dezenas (n / 10 - 2) ++ py " e " ++ palavra unidades (n mod 10).

Definition cardinal_ate_999 (n : Z) : pystr :=
  if n <? 100 then cardinal_ate_99 n
  else if n =? 100 then py "cem"
  else if n mod 100 =? 0 then palavra centenas (n / 100 - 1)
  else palavra centenas (n / 100 - 1) ++ py " e " ++ cardinal_ate_99 (n mod 100).

Definition num2words_ate_999 (n : Z) : result pystr :=
  if (0 <=? n) && (n <=? 999) then Ok (cardinal_ate_999 n)
  else Raise OverflowError.

(** * Formatting the amount: [f"R$ {x:,.2f}"] and the separator swap *)

Fixpoint digits_of_uint (u : Decimal.uint) : pystr :=
  match u with
  | Decimal.Nil => []
  | Decimal.D0 r => 48%N :: digits_of_uint r
  | Decimal.D1 r => 49%N :: digits_of_uint r
  | Decimal.D2 r => 50%N :: digits_of_uint r
  | Decimal.D3 r => 51%N :: digits_of_uint r
  | Decimal.D4 r => 52%N :: digits_of_uint r
  | Decimal.D5 r => 53%N :: digits_of_uint r
  | Decimal.D6 r => 54%N :: digits_of_uint r
  | Decimal.D7 r => 55%N :: digits_of_uint r
  | Decimal.D8 r => 56%N :: digits_of_uint r
  | Decimal.D9 r => 57%N :: digits_of_uint r
  end.

(** The decimal digits of a natural number, ["0"] for zero. *)
Definition decimal (n : Z) : pystr := digits_of_uint (N.to_uint (Z.to_N n)).

(** A comma after every third digit, counted from the right; the argument
    holds the digits from the last to the first. *)
Fixpoint group3 (rdigits : pystr) : pystr :=
  match rdigits with
  | a :: b :: c :: ((_ :: _) as r) => a :: b :: c :: 44%N :: group3 r
  | _ => rdigits
  end.

Definition group_thousands (digits : pystr) : pystr :=
  rev (group3 (rev digits)).

Definition two_digits (k : Z) : pystr :=
  [Z.to_N (48 + k / 10); Z.to_N (48 + k mod 10)].

(** [format(x, ',.2f')]: the exact value rounded to hundredths, ties to
    even, with grouped integer digits. *)
Definition format_comma_2f (x : float) : pystr :=
  match x with
  | NaN => py "nan"
  | Inf s => (if s then py "-" else []) ++ py "inf"
  | Fin s m e =>
      let hundredths := div_half_even (mag_num m e * 100) (mag_den e) in
      (if s then py "-" else [])
        ++ group_thousands (decimal (hundredths / 100))
        ++ py "." ++ two_digits (hundredths mod 100)
  end.

(** [s.replace(old, new)] for one-character [old] and [new]. *)
Definition replace (old new : N) (s : pystr) : pystr :=
  map (fun c => if (c =? old)%N then new else c) s.

Definition comma : N := 44.
Definition dot : N := 46.
Definition letter_X : N := 88.
Definition space : N := 32.

(** [f"R$ {v:,.2f}".replace(',', 'X').replace('.', ',').replace('X', '.')]. *)
Definition formatar_valor (v : float) : pystr :=
  replace letter_X dot
    (replace dot comma
       (replace comma letter_X (py "R$ " ++ format_comma_2f v))).

(** * Wrapping the words of the amount *)

Definition max_chars_line : nat := 90.

(** [s.rfind(c)]: the index of the last [c], or [-1]. *)
Fixpoint rfind (s : pystr) (c : N) : Z :=
  match s with
  | [] => -1
  | a :: r =>
      let j := rfind r c in
      if 0 <=? j then j + 1 else if (a =? c)%N then 0 else -1
  end.

(** [s.endswith(c)] for a one-character [c]. *)
Definition endswith (s : pystr) (c : N) : bool :=
  match last s with
  | Some a => (a =? c)%N
  | None => false
  end.

Definition inspect {A : Type} (x : A) : {y : A | x = y} := exist _ x eq_refl.

(** The [while extenso:] loop; the result is [lines]. *)
Equations? quebrar_linhas (extenso : pystr) : list pystr
  by wf (length extenso) lt :=
  quebrar_linhas [] := [];
  quebrar_linhas (a :: r)
    with bool_decide (length (a :: r) <= max_chars_line)%nat => {
    | true := [a :: r];
    | false
        with inspect (rfind (take max_chars_line (a :: r)) space =? -1) => {
        | exist _ true nospace :=
            take max_chars_line (a :: r)
              :: quebrar_linhas (drop max_chars_line (a :: r));
        | exist _ false found :=
            take (Z.to_nat (rfind (take max_chars_line (a :: r)) space)) (a :: r)
              :: quebrar_linhas
                   (drop (Z.to_nat (rfind (take max_chars_line (a :: r)) space + 1))
                      (a :: r)) } }.
Proof.
  - rewrite length_drop. unfold max_chars_line. simpl. lia.
  - rewrite length_drop.
    assert (forall s c, -1 <= rfind s c) as bound.
    { intros s c. induction s as [|b s IH]; simpl; [lia|].
      destruct (0 <=? rfind s c); [lia|]. destruct (b =? c)%N; lia. }
    specialize (bound (take max_chars_line (a :: r)) space).
    apply Z.eqb_neq in found. simpl length. lia.
Qed.

(** * ReceiptLayoutEngine: [gerar_recibo_pdf_memoria] *)

(** ** Expressions over numbers

    An arithmetic expression evaluates to a number or raises; operands are
    evaluated from left to right. *)

Definition lift2 (f : num -> num -> result num) (a b : result num) : result num :=
  x ← a; y ← b; f x y.

Definition lit (i : Z) : result num := Ok (Int i).
Definition var (a : num) : result num := Ok a.
Coercion lit : Z >-> result.
Coercion var : num >-> result.

Declare Scope expr_scope.
Delimit Scope expr_scope with E.
Arguments lift2 f (a b)%_E.
Notation "a + b" := (lift2 num_add a b) : expr_scope.
Notation "a - b" := (lift2 num_sub a b) : expr_scope.
Notation "a * b" := (lift2 num_mul a b) : expr_scope.
Notation "a / b" := (lift2 num_truediv a b) : expr_scope.

(** ** reportlab: units, page size, colours and the canvas *)

(** [reportlab.lib.units.mm], which is [72.0 / 2.54 * 0.1], and
    [reportlab.lib.pagesizes.A4], which is [(210*mm, 297*mm)]. *)
Definition mm : num := Float (float_of_decimal false 2834645669291339 (-15)).
Definition A4 : num * num :=
  (Float (float_of_decimal false 5952755905511812 (-13)),
   Float (float_of_decimal false 8418897637795277 (-13))).

Inductive color : Set := black.

(** The calls a canvas records. *)
Inductive op : Set :=
| setLineWidth (w : num)
| rect (x y w h : num) (stroke fill : Z)
| setFont (name : pystr) (size : num)
| setFillColorRGB (r g b : num)
| setFillColor (c : color)
| drawString (x y : num) (text : pystr)
| drawCentredString (x y : num) (text : pystr)
| drawRightString (x y : num) (text : pystr)
| line (x1 y1 x2 y2 : num)
| showPage.

(** The objects of one call: the canvas [c] with the operations recorded
    so far, and the [BytesIO] buffer.  [c.save()] writes the document to
    the buffer; the document is kept as the operations it is made of, the
    bytes being reportlab's encoding of them. *)
Record estado : Type := Estado {
  canvas : list op;
  buffer : list op
}.

Definition M (A : Type) : Type := estado -> result A * estado.

#[global] Instance M_ret : MRet M := fun A a st => (Ok a, st).

#[global] Instance M_bind : MBind M := fun A B k m st =>
  match m st with
  | (Ok a, st1) => k a st1
  | (Raise x, st1) => (Raise x, st1)
  end.

(** A local variable: [x = e], then the rest of the body. *)
Definition M_let {A B : Type} (m : M A) (k : A -> M B) : M B := mbind k m.

Notation "x <- y ; z" := (M_let y (fun x => z))
  (at level 20, y at level 100, z at level 200, only parsing).

(** Evaluation of an expression inside a call. *)
Definition eval {A : Type} (r : result A) : M A := fun st => (r, st).

Definition record (o : op) : M unit :=
  fun st => (Ok tt, Estado (canvas st ++ [o]) (buffer st)).

Definition c_save : M unit :=
  fun st => (Ok tt, Estado (canvas st) (canvas st)).

Definition c_setLineWidth (w : result num) : M unit :=
  w ← eval w; record (setLineWidth w).

Definition c_rect (x y w h : result num) (stroke fill : Z) : M unit :=
  x ← eval x; y ← eval y; w ← eval w; h ← eval h;
  record (rect x y w h stroke fill).

Definition c_setFont (name : pystr) (size : result num) : M unit :=
  size ← eval size; record (setFont name size).

Definition c_setFillColorRGB (r g b : result num) : M unit :=
  r ← eval r; g ← eval g; b ← eval b; record (setFillColorRGB r g b).

Definition c_drawString (x y : result num) (text : result pystr) : M unit :=
  x ← eval x; y ← eval y; text ← eval text; record (drawString x y text).

Definition c_drawCentredString (x y : result num) (text : result pystr) : M unit :=
  x ← eval x; y ← eval y; text ← eval text; record (drawCentredString x y text).

Definition c_drawRightString (x y : result num) (text : result pystr) : M unit :=
  x ← eval x; y ← eval y; text ← eval text; record (drawRightString x y text).

Definition c_line (x1 y1 x2 y2 : result num) : M unit :=
  x1 ← eval x1; y1 ← eval y1; x2 ← eval x2; y2 ← eval y2;
  record (line x1 y1 x2 y2).

Arguments c_setLineWidth w%_E.
Arguments c_rect (x y w h)%_E (stroke fill)%_Z.
Arguments c_setFont name size%_E.
Arguments c_setFillColorRGB (r g b)%_E.
Arguments c_drawString (x y)%_E text.
Arguments c_drawCentredString (x y)%_E text.
Arguments c_drawRightString (x y)%_E text.
Arguments c_line (x1 y1 x2 y2)%_E.
Arguments eval {A} r%_E.

(** ** The receipt dictionary *)

(** [d[key]]. *)
Definition getitem (d : gmap string pystr) (key : string) : result pystr :=
  match d !! key with
  | Some v => Ok v
  | None => Raise KeyError
  end.

(** [d.get(key, dflt)]. *)
Definition get (d : gmap string pystr) (key : string) (dflt : pystr) : pystr :=
  default dflt (d !! key).

(** [0.6] and [0.9], the tints of the boxes. *)
Definition tint_06 : num := Float (float_of_decimal false 6 (-1)).
Definition tint_09 : num := Float (float_of_decimal false 9 (-1)).

(** The [for ln in lines[:2]] loop, from the baseline [text_y]. *)
Fixpoint desenhar_linhas (ext_box_x text_y : num) (lines : list pystr) : M unit :=
  match lines with
  | [] => mret tt
  | ln :: rest =>
      c_drawString (ext_box_x + 6) text_y (Ok ln);;
      text_y ← eval (text_y - 12);
      desenhar_linhas ext_box_x text_y rest
  end.

(** [buffer = BytesIO()] and [c = canvas.Canvas(buffer, pagesize=A4)]: both
    objects are new. *)
Definition novo_canvas : M unit := fun _ => (Ok tt, Estado [] []).

(** [return buffer]. *)
Definition devolver_buffer : M (list op) := fun st => (Ok (buffer st), st).

(** The period added to the words when they lack one. *)
Definition terminar_com_ponto (extenso : pystr) : pystr :=
  if negb (bool_decide (extenso = [])) && negb (endswith extenso dot)
  then extenso ++ [dot] else extenso.

Section ReceiptLayoutEngine.

Variable float_of_str : pystr -> option float.

(** [float(s)]. *)
Definition float_str (s : pystr) : result float :=
  match float_of_str s with
  | Some v => Ok v
  | None => Raise ValueError
  end.

Definition gerar_recibo_pdf_memoria (d : gmap string pystr) : M (list op) :=
  novo_canvas;;
  let '(width, height) := A4 in
  margin <- eval (12 * mm);

  c_setLineWidth 2;;
  c_rect margin margin (width - 2 * margin) (height - 2 * margin) 1 0;;

  let empresa := get d "empresa_nome" (py "ESTILU CONTABILIDADE LTDA") in
  let empresa_cnpj := get d "empresa_cnpj" (py "CNPJ: 26.631.734/0001-62") in
  let empresa_end :=
    get d "empresa_end"
      (py "Rua Oratório, 1683 - Parque das Nações - Santo André - SP") in

  c_setFont (py "Helvetica-Bold") 14;;
  c_drawCentredString (width / 2) (height - margin - 8) (Ok empresa);;
  c_setFont (py "Helvetica") 8;;
  c_drawCentredString (width / 2) (height - margin - 22)
    (Ok (empresa_cnpj ++ py "   " ++ empresa_end));;

  box_w <- eval (55 * mm);
  box_h <- eval (14 * mm);
  box_x <- eval (width - margin - box_w - 6 * mm);
  box_y <- eval (height - margin - box_h - 14 * mm);
  c_setFillColorRGB 1 1 tint_06;;
  c_rect box_x box_y box_w box_h 0 1;;
  c_setLineWidth 1;;
  record (setFillColor black);;
  c_rect box_x box_y box_w box_h 1 0;;
  c_setFont (py "Helvetica-Bold") 11;;
  valor_formatado <- eval (valor ← getitem d "valor";
                          v ← float_str valor;
                          Ok (formatar_valor v));
  c_drawRightString (box_x + box_w - 8) (box_y + box_h / 2 - 4)
    (Ok valor_formatado);;

  recebemos_y <- eval (box_y - 18);
  c_setFont (py "Helvetica") 9;;
  c_drawString (margin + 10) (recebemos_y + 12) (Ok (py "RECEBEMOS DE:"));;
  nome_box_w <- eval (width - 2 * margin - box_w - 24 * mm);
  nome_box_x <- eval (margin + 10);
  let nome_box_h := Int 26 in
  nome_box_y <- eval (recebemos_y - 8 - nome_box_h);
  c_setFillColorRGB 1 1 tint_09;;
  c_rect nome_box_x nome_box_y nome_box_w nome_box_h 0 1;;
  record (setFillColor black);;
  c_setLineWidth 1;;
  c_rect nome_box_x nome_box_y nome_box_w nome_box_h 1 0;;
  c_setFont (py "Helvetica-Bold") 10;;
  c_drawString (nome_box_x + 6) (nome_box_y + 6) (getitem d "nome");;

  extenso_y_top <- eval (nome_box_y - 10);
  c_setFont (py "Helvetica") 9;;
  c_drawString (margin + 10) extenso_y_top (Ok (py "LÍQUIDA DE:"));;
  ext_box_x <- eval (margin + 10);
  ext_box_w <- eval (width - 2 * margin - 20);
  let ext_box_h := Int 36 in
  ext_box_y <- eval (extenso_y_top - 8 - ext_box_h);
  c_setFillColorRGB 1 1 tint_09;;
  c_rect ext_box_x ext_box_y ext_box_w ext_box_h 0 1;;
  record (setFillColor black);;
  c_rect ext_box_x ext_box_y ext_box_w ext_box_h 1 0;;

  let extenso := terminar_com_ponto (get d "valor_extenso" []) in
  let lines := quebrar_linhas extenso in
  text_y <- eval (ext_box_y + ext_box_h - 12);
  c_setFont (py "Helvetica") 9;;
  desenhar_linhas ext_box_x text_y (take 2 lines);;

  ref_y <- eval (ext_box_y - 8);
  c_setFont (py "Helvetica") 9;;
  c_drawString (margin + 10) ref_y (Ok (py "REFERENTE:"));;
  c_setFont (py "Helvetica-Bold") 9;;
  c_drawString (margin + 80) ref_y (Ok (get d "referente" []));;

  discr_x <- eval (margin + 10);
  discr_y <- eval (ref_y - 26);
  discr_w <- eval (90 * mm);
  discr_h <- eval (60 * mm);
  c_rect discr_x (discr_y - discr_h) discr_w discr_h 1 0;;
  c_setFont (py "Helvetica-Bold") 9;;
  c_drawString (discr_x + 8) (discr_y - 12)
    (Ok (py "DISCRIMINAÇÃO DOS VALORES"));;
  c_setFont (py "Helvetica") 9;;
  c_drawString (discr_x + 10) (discr_y - 30) (Ok (py "MENSALIDADE"));;
  c_drawRightString (discr_x + discr_w - 10) (discr_y - 30) (Ok valor_formatado);;
  c_drawString (discr_x + 10) (discr_y - 46) (Ok (py "ALT. CONTRATO"));;
  c_drawRightString (discr_x + discr_w - 10) (discr_y - 46) (Ok (py "R$ -"));;
  c_drawString (discr_x + 10) (discr_y - 62) (Ok (py "REGULARIZAÇÃO"));;
  c_drawRightString (discr_x + discr_w - 10) (discr_y - 62) (Ok (py "R$ -"));;
  c_setFont (py "Helvetica-Bold") 9;;
  c_drawString (discr_x + 10) (discr_y - 86) (Ok (py "VALOR TOTAL"));;
  c_drawRightString (discr_x + discr_w - 10) (discr_y - 86) (Ok valor_formatado);;

  assin_x <- eval (discr_x + discr_w + 12);
  assin_y <- eval (discr_y - 10);
  assin_w <- eval (width - margin - assin_x - 8);
  assin_h <- eval (discr_h - 8);
  c_rect assin_x (assin_y - assin_h) assin_w assin_h 1 0;;
  c_setFont (py "Helvetica") 9;;
  c_drawString (assin_x + 8) (assin_y - 16) (Ok (py "NOME:"));;
  c_line (assin_x + 8) (assin_y - 36) (assin_x + assin_w - 8) (assin_y - 36);;
  c_drawString (assin_x + 8) (assin_y - 58) (Ok (py "CNPJ/CPF:"));;
  c_line (assin_x + 8) (assin_y - 78) (assin_x + assin_w - 8) (assin_y - 78);;
  c_setFont (py "Helvetica-Bold") 9;;
  c_drawString (assin_x + 10) (assin_y - 28) (getitem d "nome");;
  c_drawString (assin_x + 10) (assin_y - 70) (Ok (get d "cpf_cnpj" []));;

  rodape_y <- eval (margin + 28);
  c_setFont (py "Helvetica") 9;;
  c_drawString (margin + 10) (rodape_y + 6)
    (Ok (py "Santo André, " ++ get d "data_recibo" []));;
  c_setFont (py "Helvetica") 8;;
  c_drawString (margin + 10) (rodape_y - 8)
    (Ok (py "Observações: " ++ get d "observacoes" []));;

  c_setFont (py "Helvetica-Bold") 9;;
  c_drawRightString (width - margin - 8) (margin + 12) (Ok empresa);;

  record showPage;;
  c_save;;
  devolver_buffer.

End ReceiptLayoutEngine.

(** ** Reading a document

    The texts a document shows, in drawing order, and the rows of the
    itemization table: a label drawn at the left followed at once by a
    value drawn right-aligned. *)

Definition texto_de (o : op) : option pystr :=
  match o with
  | drawString _ _ t | drawCentredString _ _ t | drawRightString _ _ t => Some t
  | _ => None
  end.

Definition textos (ops : list op) : list pystr := omap texto_de ops.

Fixpoint linhas_da_tabela (ops : list op) : list (pystr * pystr) :=
  match ops with
  | [] => []
  | drawString _ _ rotulo :: ((drawRightString _ _ valor :: _) as rest) =>
      (rotulo, valor) :: linhas_da_tabela rest
  | _ :: rest => linhas_da_tabela rest
  end.

(** The texts of the document, from the record. *)
Definition textos_do_recibo (d : gmap string pystr) (v : float) (nome : pystr)
    : list pystr :=
  let empresa := get d "empresa_nome" (py "ESTILU CONTABILIDADE LTDA") in
  [ empresa;
    get d "empresa_cnpj" (py "CNPJ: 26.631.734/0001-62") ++ py "   "
      ++ get d "empresa_end"
           (py "Rua Oratório, 1683 - Parque das Nações - Santo André - SP");
    formatar_valor v;
    py "RECEBEMOS DE:";
    nome;
    py "LÍQUIDA DE:" ]
  ++ take 2 (quebrar_linhas (terminar_com_ponto (get d "valor_extenso" [])))
  ++ [ py "REFERENTE:";
       get d "referente" [];
       py "DISCRIMINAÇÃO DOS VALORES";
       py "MENSALIDADE"; formatar_valor v;
       py "ALT. CONTRATO"; py "R$ -";
       py "REGULARIZAÇÃO"; py "R$ -";
       py "VALOR TOTAL"; formatar_valor v;
       py "NOME:";
       py "CNPJ/CPF:";
       nome;
       get d "cpf_cnpj" [];
       py "Santo André, " ++ get d "data_recibo" [];
       py "Observações: " ++ get d "observacoes" [];
       empresa ].

(** The separators exchanged: a comma for a dot and a dot for a comma. *)
Definition trocar_separador (c : N) : N :=
  if (c =? comma)%N then dot else if (c =? dot)%N then comma else c.

Definition is_digit (c : N) : Prop := (48 <= c <= 57)%N.

(** The text without its spaces. *)
Definition sem_espacos (s : pystr) : pystr :=
  filter (fun c : N => c <> space) s.


(** ** Examples *)

(** A record used in the examples. *)
Definition recibo_exemplo : gmap string pystr :=
  <["nome" := py "Maria da Silva"]>
    (<["valor" := py "1234.5"]>
       (<["valor_extenso" :=
            py "mil, duzentos e trinta e quatro reais e cinquenta centavos"]>
          (<["referente" := py "Mensalidade 01/2024"]> ∅))).

Definition estado_inicial : estado := Estado [] [].

Definition extenso_95 : pystr :=
  py "novecentos e noventa e quatro mil, novecentos e noventa e nove reais e noventa e nove centavos.".

(** * The web layer: the routes that use the two functions, and the
      customer registry

    The collaborators are kept as what the routes see of them: the
    submitted form is a finite map from field names to texts, the clock
    is the texts its readings format to, a flashed message is appended to
    the messages of the session, a response is the redirect, the file or
    the page the route returns, and the two tables of the database are
    finite maps from row identifiers to rows, each with the counter that
    [AUTOINCREMENT] keeps. *)

(** [str.isspace] on one character, as [str.strip()] uses it. *)
Definition py_isspace (c : N) : bool :=
  ((9 <=? c) && (c <=? 13) || (28 <=? c) && (c <=? 32)
   || (c =? 133) || (c =? 160) || (c =? 5760)
   || (8192 <=? c) && (c <=? 8202)
   || (c =? 8232) || (c =? 8233) || (c =? 8239) || (c =? 8287)
   || (c =? 12288))%N.

Fixpoint str_lstrip (s : pystr) : pystr :=
  match s with
  | c :: r => if py_isspace c then str_lstrip r else s
  | [] => []
  end.

(** [s.strip()]. *)
Definition str_strip (s : pystr) : pystr :=
  rev (str_lstrip (rev (str_lstrip s))).

(** [not s] for a text. *)
Definition vazio (s : pystr) : bool :=
  match s with
  | [] => true
  | _ => false
  end.

(** The readings of [datetime.now()] during a request, formatted with
    ['%d/%m/%Y'], [isoformat()] and ['%Y%m%d%H%M%S']. *)
Record relogio : Type := Relogio {
  hoje : pystr;
  agora_iso : pystr;
  carimbo : pystr
}.

(** A row of [clientes] and a row of [recibos], without the [id]; a
    column that may hold NULL is an option. *)
Record cliente : Type := Cliente {
  c_nome : pystr;
  c_cpf_cnpj : option pystr;
  c_observacao : option pystr
}.

Record recibo : Type := Recibo {
  r_cliente_id : option Z;
  r_nome : pystr;
  r_cpf_cnpj : pystr;
  r_valor : pystr;
  r_data_recibo : pystr;
  r_referente : pystr;
  r_observacoes : pystr;
  r_arquivo : option pystr;
  r_criado_em : pystr
}.

Record banco : Type := Banco {
  clientes : gmap Z cliente;
  seq_clientes : Z;
  recibos : gmap Z recibo;
  seq_recibos : Z
}.

(** The largest identifier of a table, [0] for an empty one. *)
Definition maior_id {A : Type} (t : gmap Z A) : Z :=
  map_fold (fun (k : Z) (_ : A) (acc : Z) => Z.max k acc) 0 t.

(** The identifier [AUTOINCREMENT] gives to a new row: one more than the
    largest identifier the table holds or has ever held. *)
Definition proximo_id {A : Type} (seq : Z) (t : gmap Z A) : Z :=
  Z.max seq (maior_id t) + 1.

Record sessao : Type := Sessao {
  db : banco;
  flashes : list pystr
}.

(** [flash(msg)]. *)
Definition flash (msg : pystr) (st : sessao) : sessao :=
  Sessao (db st) (flashes st ++ [msg]).

(** The form pre-filled on the page. *)
Record prepop : Type := Prepop {
  p_nome : pystr;
  p_cpf_cnpj : option pystr;
  p_valor : pystr;
  p_valor_extenso : pystr;
  p_data_recibo : pystr;
  p_referente : pystr;
  p_observacoes : pystr
}.

Inductive resposta : Type :=
| Redirect (endpoint : string)
| Texto (t : pystr)
| Arquivo (conteudo : list op) (download_name : pystr)
| Pagina (lista : list (Z * cliente)) (pre : option prepop) (dia : pystr)
| PaginaEdicao (c : cliente).

(** What is raised out of a route: an exception of the core,
    [sqlite3.IntegrityError], or [TypeError] on subscripting [None]. *)
Inductive falha : Type :=
| Excecao (x : exn)
| IntegrityError
| TypeError.

Inductive desfecho : Type :=
| Responde (r : resposta)
| Falha (f : falha).

(** [x or ''] for a column that may hold NULL. *)
Definition ou_vazio (x : option pystr) : pystr :=
  match x with
  | Some o => if vazio o then [] else o
  | None => []
  end.

(** [INSERT INTO recibos (...) VALUES (...)] and [db.commit()]. *)
Definition inserir_recibo (r : recibo) (b : banco) : banco :=
  let id := proximo_id (seq_recibos b) (recibos b) in
  Banco (clientes b) (seq_clientes b) (<[id := r]> (recibos b)) id.

(** [INSERT INTO clientes (nome, cpf_cnpj, observacao) VALUES (?, ?, ?)]:
    [nome] is [NOT NULL]. *)
Definition inserir_cliente (nome cpf obs : option pystr) (b : banco)
    : option (Z * banco) :=
  match nome with
  | None => None
  | Some n =>
      let id := proximo_id (seq_clientes b) (clientes b) in
      Some (id, Banco (<[id := Cliente n cpf obs]> (clientes b)) id
                  (recibos b) (seq_recibos b))
  end.


(** [DELETE FROM clientes WHERE id=?]. *)
Definition remover_cliente (cid : Z) (b : banco) : banco :=
  Banco (delete cid (clientes b)) (seq_clientes b) (recibos b) (seq_recibos b).

Definition com_banco (b : banco) (st : sessao) : sessao :=
  Sessao b (flashes st).

Section Rotas.

Variable float_of_str : pystr -> option float.
Variable num2words : Z -> result pystr.

(** [SELECT * FROM clientes ORDER BY nome], as the database orders it. *)
Variable ordenar_por_nome : gmap Z cliente -> list (Z * cliente).

(** The route [/extenso]. *)
Definition extenso_api (args : gmap string pystr) : desfecho :=
  let v := get args "valor" [] in
  match valor_por_extenso float_of_str num2words v with
  | Ok t => Responde (Texto t)
  | Raise x => Falha (Excecao x)
  end.

(** The dictionary [d] that [generate] builds. *)
Definition dados_do_recibo
    (nome cpf valor valor_extenso data_recibo referente observacoes : pystr)
    : gmap string pystr :=
  <["nome" := nome]>
  (<["cpf_cnpj" := cpf]>
  (<["valor" := valor]>
  (<["valor_extenso" := valor_extenso]>
  (<["data_recibo" := data_recibo]>
  (<["referente" := referente]>
  (<["observacoes" := observacoes]>
  (<["empresa_nome" := py "ESTILU CONTABILIDADE LTDA"]>
  (<["empresa_cnpj" := py "CNPJ: 26.631.734/0001-62"]>
  (<["empresa_end" :=
       py "Rua Oratório, 1683 - Parque das Nações - Santo André - SP"]>
     ∅))))))))).

(** [f"recibo_{nome[:20].replace(' ', '_')}_{...}.pdf"]. *)
Definition nome_do_arquivo (nome stamp : pystr) : pystr :=
  py "recibo_" ++ replace space 95 (take 20 nome) ++ py "_" ++ stamp
    ++ py ".pdf".

(** The route [/generate]. *)
Definition generate (t : relogio) (form : gmap string pystr) (st : sessao)
    : desfecho * sessao :=
  let nome := str_strip (get form "nome" []) in
  let cpf := str_strip (get form "cpf_cnpj" []) in
  let valor := str_strip (get form "valor" []) in
  let data_recibo :=
    let x := str_strip (get form "data_recibo" []) in
    if vazio x then hoje t else x in
  let referente := str_strip (get form "referente" []) in
  let observacoes := str_strip (get form "observacoes" []) in
  if vazio nome || vazio valor then
    (Responde (Redirect "index"),
     flash (py "Preencha pelo menos o Nome e o Valor.") st)
  else
    match float_of_str valor with
    | None =>
        (Responde (Redirect "index"),
         flash (py "Valor inválido. Use ponto como separador decimal (ex: 431.00)")
           st)
    | Some _ =>
        match valor_por_extenso float_of_str num2words valor with
        | Raise x => (Falha (Excecao x), st)
        | Ok valor_extenso =>
            let d := dados_do_recibo nome cpf valor valor_extenso data_recibo
                       referente observacoes in
            let st1 :=
              com_banco
                (inserir_recibo
                   (Recibo None nome cpf valor data_recibo referente
                      observacoes None (agora_iso t))
                   (db st)) st in
            match gerar_recibo_pdf_memoria float_of_str d (Estado [] []) with
            | (Raise x, _) => (Falha (Excecao x), st1)
            | (Ok pdf_io, _) =>
                (Responde (Arquivo pdf_io (nome_do_arquivo nome (carimbo t))),
                 st1)
            end
        end
    end.

(** The route [/add_client]; [dia_prepop] and [dia_pagina] are its two
    readings of the clock. *)
Definition add_client (dia_prepop dia_pagina : pystr)
    (form : gmap string pystr) (st : sessao) : desfecho * sessao :=
  let nome := form !! "nome"%string in
  let cpf := form !! "cpf_cnpj"%string in
  let obs := form !! "observacao"%string in
  match inserir_cliente nome cpf obs (db st) with
  | None => (Falha IntegrityError, st)
  | Some (client_id, b) =>
      match clientes b !! client_id with
      | None => (Falha TypeError, com_banco b st)
      | Some c =>
          let pre :=
            Prepop (c_nome c) (c_cpf_cnpj c) [] [] dia_prepop []
              (ou_vazio (c_observacao c)) in
          (Responde (Pagina (ordenar_por_nome (clientes b)) (Some pre) dia_pagina),
           flash (py "Cliente adicionado e carregado no formulário.")
             (com_banco b st))
      end
  end.

(** The route [/edit_client/<int:cid>], with [GET] and with [POST]. *)
Definition edit_client_get (cid : Z) (st : sessao) : desfecho * sessao :=
  match clientes (db st) !! cid with
  | None =>
      (Responde (Redirect "index"), flash (py "Cliente não encontrado.") st)
  | Some c => (Responde (PaginaEdicao c), st)
  end.


(** The route [/delete_client/<int:cid>]. *)
Definition delete_client (cid : Z) (st : sessao) : desfecho * sessao :=
  (Responde (Redirect "index"),
   flash (py "Cliente removido.") (com_banco (remover_cliente cid (db st)) st)).

End Rotas.

(** A text made of blanks only, which [strip] empties. *)
Definition em_branco (s : pystr) : Prop :=
  Forall (fun c : N => py_isspace c = true) s.

Definition formulario_exemplo : gmap string pystr :=
  <["nome" := py "  Maria da Silva "]>
    (<["valor" := py " 234.50"]>
       (<["referente" := py "Mensalidade 01/2024"]> ∅)).

Definition relogio_exemplo : relogio :=
  Relogio (py "15/01/2024") (py "2024-01-15T10:30:00.000000")
    (py "20240115103000").

Definition banco_vazio : banco := Banco ∅ 0 ∅ 0.

(** The customers left after a series of removals. *)
Definition remover_varios (cids : list Z) (st : sessao) : sessao :=
  fold_left (fun (s : sessao) (cid : Z) => snd (delete_client cid s)) cids st.

(** A finite float in the format's own form (see [float]); the other
    floats are always in form. *)
Definition float_valido (x : float) : bool :=
  match x with
  | Fin _ m e =>
      (0 <=? m) && (m <? 2 ^ prec) && (emin <=? e) && (e <=? emax)
      && ((e =? emin) || (2 ^ (prec - 1) <=? m))
  | _ => true
  end.

(** * Properties *)

(** One step of the error monad: a bind whose first part is a value or
    an exception. *)
Ltac bind_ok := unfold mbind, result_bind; cbv beta iota.

(** ** The amount writer *)

Section AmountWriterFacts.

Variable float_of_str : pystr -> option float.
Variable num2words : Z -> result pystr.

Lemma partes_de_ambas (i c : Z) (wi wc : pystr) :
  0 < i -> 0 < c ->
  num2words i = Ok wi -> num2words c = Ok wc ->
  partes_de num2words i c =
    Ok [wi ++ py " " ++ (if i =? 1 then py "real" else py "reais");
        wc ++ py " " ++ (if c =? 1 then py "centavo" else py "centavos")].
Proof.
  intros Hi Hc Ewi Ewc. unfold partes_de.
  apply Z.ltb_lt in Hi, Hc. rewrite Hi, Hc, Ewi, Ewc. reflexivity.
Qed.

Lemma partes_de_nenhuma (i c : Z) :
  i <= 0 -> c <= 0 -> partes_de num2words i c = Ok [].
Proof.
  intros Hi Hc. unfold partes_de.
  apply Z.ltb_ge in Hi, Hc. rewrite Hi, Hc. reflexivity.
Qed.

End AmountWriterFacts.


(** ** The wrap loop *)

Lemma rfind_lower_bound (s : pystr) (c : N) : -1 <= rfind s c.
Proof.
  induction s as [|a r IH]; simpl; [lia|].
  destruct (0 <=? rfind r c); [lia|]. destruct (a =? c)%N; lia.
Qed.

Lemma rfind_upper_bound (s : pystr) (c : N) : rfind s c < Z.of_nat (length s).
Proof.
  induction s as [|a r IH]; simpl length; simpl rfind; [lia|].
  destruct (0 <=? rfind r c); [lia|]. destruct (a =? c)%N; lia.
Qed.

Lemma rfind_absent (s : pystr) (c : N) :
  rfind s c = -1 -> forall j : nat, s !! j <> Some c.
Proof.
  induction s as [|a r IH]; simpl; intros H j.
  - rewrite lookup_nil. discriminate.
  - pose proof (rfind_lower_bound r c).
    destruct (0 <=? rfind r c) eqn:E; [apply Z.leb_le in E; lia|].
    apply Z.leb_gt in E.
    destruct (a =? c)%N eqn:Eac; [lia|]. apply N.eqb_neq in Eac.
    destruct j as [|j]; simpl; [congruence|]. apply IH. lia.
Qed.

Lemma rfind_found (s : pystr) (c : N) (k : Z) :
  rfind s c = k -> 0 <= k ->
  s !! Z.to_nat k = Some c
  /\ forall j : nat, (Z.to_nat k < j)%nat -> s !! j <> Some c.
Proof.
  revert k. induction s as [|a r IH]; simpl; intros k H Hk; [lia|].
  destruct (0 <=? rfind r c) eqn:E.
  - apply Z.leb_le in E. destruct (IH (rfind r c) eq_refl E) as [Hat Hafter].
    subst k. replace (Z.to_nat (rfind r c + 1)) with (S (Z.to_nat (rfind r c))) by lia.
    split; [exact Hat|]. intros [|j] Hj; [lia|]. simpl. apply Hafter. lia.
  - apply Z.leb_gt in E. pose proof (rfind_lower_bound r c).
    destruct (a =? c)%N eqn:Eac; [|lia]. apply N.eqb_eq in Eac. subst k a.
    split; [reflexivity|]. intros [|j] Hj; [lia|]. simpl.
    apply rfind_absent. lia.
Qed.

Lemma quebrar_linhas_passo (t : pystr) :
  quebrar_linhas t =
    match t with
    | [] => []
    | _ =>
        if bool_decide (length t <= max_chars_line)%nat then [t]
        else
          let k := rfind (take max_chars_line t) space in
          if k =? -1 then take max_chars_line t :: quebrar_linhas (drop max_chars_line t)
          else take (Z.to_nat k) t :: quebrar_linhas (drop (Z.to_nat (k + 1)) t)
    end.
Proof.
  destruct t as [|a r]; [apply quebrar_linhas_equation_1|].
  rewrite quebrar_linhas_equation_2. unfold quebrar_linhas_unfold_clause_2.
  destruct (bool_decide (length (a :: r) <= max_chars_line)%nat); [reflexivity|].
  destruct (inspect (rfind (take max_chars_line (a :: r)) space =? -1)) as [b Hb].
  destruct b; unfold quebrar_linhas_unfold_clause_2_clause_2; cbv zeta;
    rewrite Hb; reflexivity.
Qed.


Lemma rfind_last_space (s : pystr) (c : N) (k : nat) :
  s !! k = Some c ->
  (forall j : nat, (k < j)%nat -> s !! j <> Some c) ->
  rfind s c = Z.of_nat k.
Proof.
  intros Hk Hafter.
  pose proof (rfind_lower_bound s c) as Hlow.
  destruct (Z.eq_dec (rfind s c) (-1)) as [E|E].
  - exfalso. exact (rfind_absent s c E k Hk).
  - destruct (rfind_found s c (rfind s c) eq_refl) as [Hat Hlast]; [lia|].
    destruct (Z.lt_trichotomy (rfind s c) (Z.of_nat k)) as [Hlt|[Heq|Hgt]].
    + exfalso. apply (Hlast k); [lia|exact Hk].
    + exact Heq.
    + exfalso. apply (Hafter (Z.to_nat (rfind s c))); [lia|exact Hat].
Qed.

(** The last space within the budget, seen through [rfind] on the first
    [max_chars_line] characters. *)
Lemma rfind_budget (t : pystr) (k : nat) :
  (k < max_chars_line)%nat ->
  t !! k = Some space ->
  (forall j : nat, (k < j < max_chars_line)%nat -> t !! j <> Some space) ->
  rfind (take max_chars_line t) space = Z.of_nat k.
Proof.
  intros Hk Hat Hafter. apply rfind_last_space.
  - rewrite lookup_take_lt by exact Hk. exact Hat.
  - intros j Hj H. apply lookup_take_Some in H as [H Hlt].
    apply (Hafter j); [lia|exact H].
Qed.

Lemma rfind_budget_none (t : pystr) :
  (forall j : nat, (j < max_chars_line)%nat -> t !! j <> Some space) ->
  rfind (take max_chars_line t) space = -1.
Proof.
  intros Hnone.
  pose proof (rfind_lower_bound (take max_chars_line t) space) as Hlow.
  destruct (Z.eq_dec (rfind (take max_chars_line t) space) (-1)) as [E|E];
    [exact E|].
  destruct (rfind_found (take max_chars_line t) space _ eq_refl) as [Hat _];
    [lia|].
  apply lookup_take_Some in Hat as [Hat Hlt].
  exfalso. exact (Hnone _ Hlt Hat).
Qed.

Lemma quebrar_linhas_curta (t : pystr) :
  t <> [] -> (length t <= max_chars_line)%nat -> quebrar_linhas t = [t].
Proof.
  intros Hne Hlen. rewrite quebrar_linhas_passo.
  destruct t as [|a r]; [congruence|].
  rewrite bool_decide_eq_true_2 by exact Hlen. reflexivity.
Qed.

Lemma quebrar_linhas_no_espaco (t : pystr) (k : nat) :
  (max_chars_line < length t)%nat ->
  (k < max_chars_line)%nat ->
  t !! k = Some space ->
  (forall j : nat, (k < j < max_chars_line)%nat -> t !! j <> Some space) ->
  quebrar_linhas t = take k t :: quebrar_linhas (drop (S k) t).
Proof.
  intros Hlen Hk Hat Hafter. rewrite quebrar_linhas_passo.
  destruct t as [|a r]; [simpl in Hlen; lia|].
  rewrite bool_decide_eq_false_2 by lia. cbv zeta.
  rewrite (rfind_budget (a :: r) k Hk Hat Hafter).
  destruct (Z.of_nat k =? -1) eqn:E; [apply Z.eqb_eq in E; lia|].
  rewrite Nat2Z.id. replace (Z.to_nat (Z.of_nat k + 1)) with (S k) by lia.
  reflexivity.
Qed.

Lemma quebrar_linhas_sem_espaco (t : pystr) :
  (max_chars_line < length t)%nat ->
  (forall j : nat, (j < max_chars_line)%nat -> t !! j <> Some space) ->
  quebrar_linhas t =
    take max_chars_line t :: quebrar_linhas (drop max_chars_line t).
Proof.
  intros Hlen Hnone. rewrite quebrar_linhas_passo.
  destruct t as [|a r]; [simpl in Hlen; lia|].
  rewrite bool_decide_eq_false_2 by lia. cbv zeta.
  rewrite (rfind_budget_none (a :: r) Hnone). reflexivity.
Qed.

(** A space within the budget has a last one after it. *)
Lemma last_space_exists (t : pystr) (i : nat) :
  (i < max_chars_line)%nat -> t !! i = Some space ->
  exists k : nat,
    (i <= k < max_chars_line)%nat /\ t !! k = Some space
    /\ forall j : nat, (k < j < max_chars_line)%nat -> t !! j <> Some space.
Proof.
  intros Hi Hat.
  pose proof (rfind_lower_bound (take max_chars_line t) space) as Hlow.
  assert (take max_chars_line t !! i = Some space) as Hti
    by (rewrite lookup_take_lt by exact Hi; exact Hat).
  destruct (Z.eq_dec (rfind (take max_chars_line t) space) (-1)) as [E|E];
    [exfalso; exact (rfind_absent _ _ E i Hti)|].
  destruct (rfind_found (take max_chars_line t) space _ eq_refl) as [Hk Hlast];
    [lia|].
  exists (Z.to_nat (rfind (take max_chars_line t) space)).
  apply lookup_take_Some in Hk as [Hk Hlt].
  split; [split; [|exact Hlt]|split; [exact Hk|]].
  - destruct (Nat.le_gt_cases i (Z.to_nat (rfind (take max_chars_line t) space)))
      as [Hle|Hgt]; [exact Hle|].
    exfalso. exact (Hlast i Hgt Hti).
  - intros j [Hj1 Hj2] H. apply (Hlast j Hj1).
    rewrite lookup_take_lt by exact Hj2. exact H.
Qed.




(** ** The closing period *)




(** ** The document of a receipt *)

Section ReceiptFacts.

Variable float_of_str : pystr -> option float.

Ltac abstrair_campos d :=
  unfold gerar_recibo_pdf_memoria, textos_do_recibo, getitem, float_str, get;
  generalize (default (py "ESTILU CONTABILIDADE LTDA") (d !! "empresa_nome"%string));
  generalize (default (py "CNPJ: 26.631.734/0001-62") (d !! "empresa_cnpj"%string));
  generalize (default
                (py "Rua Oratório, 1683 - Parque das Nações - Santo André - SP")
                (d !! "empresa_end"%string));
  generalize (default [] (d !! "referente"%string));
  generalize (default [] (d !! "cpf_cnpj"%string));
  generalize (default [] (d !! "data_recibo"%string));
  generalize (default [] (d !! "observacoes"%string));
  generalize (take 2 (quebrar_linhas
                        (terminar_com_ponto (default [] (d !! "valor_extenso"%string))))).

Lemma recibo_desenhado (d : gmap string pystr) (valor : pystr) (v : float)
    (nome : pystr) (st0 : estado) :
  d !! "valor"%string = Some valor ->
  float_of_str valor = Some v ->
  d !! "nome"%string = Some nome ->
  exists ops : list op,
    gerar_recibo_pdf_memoria float_of_str d st0 = (Ok ops, Estado ops ops)
    /\ textos ops = textos_do_recibo d v nome
    /\ linhas_da_tabela ops =
         [ (py "MENSALIDADE", formatar_valor v);
           (py "ALT. CONTRATO", py "R$ -");
           (py "REGULARIZAÇÃO", py "R$ -");
           (py "VALOR TOTAL", formatar_valor v) ].
Proof.
  intros Hvalor Hv Hnome.
  pose proof (firstn_le_length 2
    (quebrar_linhas (terminar_com_ponto (default [] (d !! "valor_extenso"%string)))))
    as Hduas.
  revert Hduas. abstrair_campos d. rewrite Hvalor, Hnome.
  generalize formatar_valor.
  intros fv lines obs data cpf ref e_end e_cnpj e_nome Hduas.
  destruct lines as [|l1 [|l2 [|l3 lines]]]; [| | |simpl in Hduas; lia].
  all: eexists; split;
    [vm_compute; rewrite Hv; vm_compute; reflexivity|].
  all: split; vm_compute; reflexivity.
Qed.

Lemma recibo_valor_invalido (d : gmap string pystr) (valor : pystr)
    (st0 : estado) :
  d !! "valor"%string = Some valor ->
  float_of_str valor = None ->
  exists st : estado,
    gerar_recibo_pdf_memoria float_of_str d st0 = (Raise ValueError, st)
    /\ buffer st = [].
Proof.
  intros Hvalor Hv. abstrair_campos d. rewrite Hvalor.
  generalize formatar_valor, desenhar_linhas.
  intros desenhar fv lines obs data cpf ref e_end e_cnpj e_nome.
  eexists; split; [vm_compute; rewrite Hv; vm_compute; reflexivity|].
  reflexivity.
Qed.

Lemma recibo_sem_valor (d : gmap string pystr) (st0 : estado) :
  d !! "valor"%string = None ->
  exists st : estado,
    gerar_recibo_pdf_memoria float_of_str d st0 = (Raise KeyError, st)
    /\ buffer st = [].
Proof.
  intros Hvalor. abstrair_campos d. rewrite Hvalor.
  generalize formatar_valor, desenhar_linhas.
  intros desenhar fv lines obs data cpf ref e_end e_cnpj e_nome.
  eexists; split; [vm_compute; reflexivity|]. reflexivity.
Qed.

Lemma recibo_sem_nome (d : gmap string pystr) (valor : pystr) (v : float)
    (st0 : estado) :
  d !! "valor"%string = Some valor ->
  float_of_str valor = Some v ->
  d !! "nome"%string = None ->
  exists st : estado,
    gerar_recibo_pdf_memoria float_of_str d st0 = (Raise KeyError, st)
    /\ buffer st = [].
Proof.
  intros Hvalor Hv Hnome. abstrair_campos d. rewrite Hvalor, Hnome.
  generalize formatar_valor, desenhar_linhas.
  intros desenhar fv lines obs data cpf ref e_end e_cnpj e_nome.
  eexists; split; [vm_compute; rewrite Hv; vm_compute; reflexivity|].
  reflexivity.
Qed.

(** A receipt is produced only from a record with a name and a readable
    amount. *)
Lemma recibo_ok_inv (d : gmap string pystr) (st0 st : estado) (ops : list op) :
  gerar_recibo_pdf_memoria float_of_str d st0 = (Ok ops, st) ->
  exists (valor : pystr) (v : float) (nome : pystr),
    d !! "valor"%string = Some valor
    /\ float_of_str valor = Some v
    /\ d !! "nome"%string = Some nome.
Proof.
  intros Hok.
  destruct (d !! "valor"%string) as [valor|] eqn:Hvalor.
  - destruct (float_of_str valor) as [v|] eqn:Hv.
    + destruct (d !! "nome"%string) as [nome|] eqn:Hnome.
      * exists valor, v, nome. auto.
      * destruct (recibo_sem_nome d valor v st0 Hvalor Hv Hnome) as (s & E & _).
        congruence.
    + destruct (recibo_valor_invalido d valor st0 Hvalor Hv) as (s & E & _).
      congruence.
  - destruct (recibo_sem_valor d st0 Hvalor) as (s & E & _). congruence.
Qed.

End ReceiptFacts.

(** C4. When the integer part [i] and the subunit part [f] of the amount
    are both positive, [valor_por_extenso] writes the words of [i] followed
    by "real" exactly when [i = 1] and by "reais" otherwise, then " e ",
    then the words of [f] followed by "centavo" exactly when [f = 1] and by
    "centavos" otherwise; for 1.01 this is "um real e um centavo". *)
Theorem C4_singular_plural_conjuncao :
  (forall (float_of_str : pystr -> option float)
          (num2words : Z -> result pystr)
          (value : pystr) (v : float) (i f : Z) (wi wf : pystr),
      float_of_str value = Some v ->
      parte_inteira v = Ok i ->
      parte_centavos v i = Ok f ->
      0 < i -> 0 < f ->
      num2words i = Ok wi -> num2words f = Ok wf ->
      valor_por_extenso float_of_str num2words value =
        Ok (wi ++ py " " ++ (if i =? 1 then py "real" else py "reais")
              ++ py " e "
              ++ wf ++ py " "
              ++ (if f =? 1 then py "centavo" else py "centavos")))
  /\ valor_por_extenso float_ascii num2words_ate_999 (py "1.01") =
       Ok (py "um real e um centavo").
Proof.
  split.
  - intros float_of_str num2words value v i f wi wf Hv Hi Hf Hpi Hpf Ewi Ewf.
    unfold valor_por_extenso. rewrite Hv, Hi. bind_ok.
    rewrite Hf. bind_ok.
    rewrite (partes_de_ambas num2words i f wi wf Hpi Hpf Ewi Ewf). bind_ok.
    unfold join. rewrite <- !app_assoc. reflexivity.
  - vm_compute. reflexivity.
Qed.

Lemma C4_witness :
  valor_por_extenso float_ascii num2words_ate_999 (py "12.01") =
    Ok (py "doze reais e um centavo").
Proof.
  refine (proj1 C4_singular_plural_conjuncao float_ascii num2words_ate_999
            (py "12.01") (Fin false 6761028940589957 (-49)) 12 1
            (py "doze") (py "um") _ _ _ _ _ _ _);
    solve [vm_compute; reflexivity | lia].
Defined.

(** C5. [valor_por_extenso] of zero is the literal "zero reais", and so is
    the result whenever the integer part and the subunit part are both
    zero. *)
Theorem C5_zero_reais :
  (forall (float_of_str : pystr -> option float)
          (num2words : Z -> result pystr) (value : pystr) (v : float),
      float_of_str value = Some v ->
      parte_inteira v = Ok 0 ->
      parte_centavos v 0 = Ok 0 ->
      valor_por_extenso float_of_str num2words value = Ok (py "zero reais"))
  /\ (forall num2words : Z -> result pystr,
        valor_por_extenso float_ascii num2words (py "0") =
          Ok (py "zero reais")).
Proof.
  split.
  - intros float_of_str num2words value v Hv Hi Hf.
    unfold valor_por_extenso. rewrite Hv, Hi. bind_ok.
    rewrite Hf. bind_ok.
    rewrite (partes_de_nenhuma num2words 0 0) by lia. reflexivity.
  - intros num2words. vm_compute. reflexivity.
Qed.

Lemma C5_witness :
  valor_por_extenso float_ascii num2words_ate_999 (py "0.004") =
    Ok (py "zero reais").
Proof.
  refine (proj1 C5_zero_reais float_ascii num2words_ate_999 (py "0.004")
            (Fin false 4611686018427388 (-60)) _ _ _);
    vm_compute; reflexivity.
Defined.

(** C1. At 2.995 the subunit part rounds to 100 and [valor_por_extenso]
    keeps it: the words are "dois reais e cem centavos", while the same
    amount is formatted as "R$ 3,00". *)
Theorem C1_sem_transporte_em_2_995 :
  valor_por_extenso float_ascii num2words_ate_999 (py "2.995") =
    Ok (py "dois reais e cem centavos")
  /\ formatar_valor <$> float_ascii (py "2.995") = Some (py "R$ 3,00").
Proof. split; vm_compute; reflexivity. Qed.

(** * Further properties *)

(** ** What the wrap loop keeps *)

(** One step of the loop on a text beyond the budget: a line of at most
    [max_chars_line] characters and a shorter, non-empty rest; the line
    and the rest make up the text, but for the space of a soft break. *)
Lemma quebrar_linhas_longa (t : pystr) :
  (max_chars_line < length t)%nat ->
  exists (l rest : pystr) (sep : pystr),
    quebrar_linhas t = l :: quebrar_linhas rest
    /\ t = l ++ sep ++ rest
    /\ (sep = [] \/ sep = [space])
    /\ (length l <= max_chars_line)%nat
    /\ rest <> []
    /\ (length rest < length t)%nat.
Proof.
  intros Hlen. rewrite quebrar_linhas_passo.
  destruct t as [|a r]; [simpl in Hlen; lia|].
  rewrite bool_decide_eq_false_2 by lia. cbv beta iota zeta.
  remember (a :: r) as t eqn:Et. clear a r Et.
  pose proof (rfind_lower_bound (take max_chars_line t) space) as Hlow.
  pose proof (rfind_upper_bound (take max_chars_line t) space) as Hup.
  rewrite length_take in Hup.
  destruct (rfind (take max_chars_line t) space =? -1) eqn:E.
  - exists (take max_chars_line t), (drop max_chars_line t), [].
    split; [reflexivity|]. split; [simpl; symmetry; apply take_drop|].
    split; [left; reflexivity|].
    split; [rewrite length_take; lia|].
    split.
    + intros H. apply (f_equal length) in H. rewrite length_drop in H.
      simpl in H. lia.
    + rewrite length_drop. unfold max_chars_line in *. lia.
  - apply Z.eqb_neq in E.
    set (k := Z.to_nat (rfind (take max_chars_line t) space)) in *.
    replace (Z.to_nat (rfind (take max_chars_line t) space + 1)) with (S k)
      by (unfold k; lia).
    assert (k < max_chars_line)%nat as Hk by (unfold k; lia).
    destruct (rfind_found (take max_chars_line t) space _ eq_refl) as [Hat _];
      [lia|].
    fold k in Hat. apply lookup_take_Some in Hat as [Hat _].
    exists (take k t), (drop (S k) t), [space].
    split; [reflexivity|].
    split.
    { simpl. rewrite <- (drop_S t space k Hat). symmetry. apply take_drop. }
    split; [right; reflexivity|].
    split; [rewrite length_take; lia|].
    split.
    + intros H. apply (f_equal length) in H. rewrite length_drop in H.
      simpl in H. lia.
    + rewrite length_drop. lia.
Qed.

(** Induction along the loop. *)
Lemma quebrar_linhas_ind (P : pystr -> list pystr -> Prop) :
  P [] [] ->
  (forall t : pystr,
      t <> [] -> (length t <= max_chars_line)%nat -> P t [t]) ->
  (forall t l sep rest : pystr,
      (max_chars_line < length t)%nat ->
      t = l ++ sep ++ rest ->
      sep = [] \/ sep = [space] ->
      (length l <= max_chars_line)%nat ->
      rest <> [] ->
      P rest (quebrar_linhas rest) ->
      P t (l :: quebrar_linhas rest)) ->
  forall t : pystr, P t (quebrar_linhas t).
Proof.
  intros Hnil Hshort Hlong t.
  remember (length t) as n eqn:Hn. revert t Hn.
  induction n as [n IH] using lt_wf_ind. intros t Hn.
  destruct t as [|a r] eqn:Et.
  - rewrite quebrar_linhas_equation_1. exact Hnil.
  - rewrite <- Et in *.
    destruct (Nat.le_gt_cases (length t) max_chars_line) as [Hle|Hgt].
    + rewrite quebrar_linhas_curta; [|rewrite Et; discriminate|exact Hle].
      apply Hshort; [rewrite Et; discriminate|exact Hle].
    + destruct (quebrar_linhas_longa t Hgt)
        as (l & rest & sep & Hq & Ht & Hsep & Hl & Hne & Hdec).
      rewrite Hq. apply (Hlong t l sep rest); try assumption.
      apply (IH (length rest)); [lia|reflexivity].
Qed.

Lemma linhas_dentro_do_limite (t : pystr) :
  Forall (fun l : pystr => (length l <= max_chars_line)%nat) (quebrar_linhas t).
Proof.
  apply (quebrar_linhas_ind
           (fun _ ls => Forall (fun l : pystr => (length l <= max_chars_line)%nat) ls)).
  - constructor.
  - intros t0 _ Hle. constructor; [exact Hle|constructor].
  - intros t0 l sep rest _ _ _ Hl _ IH. constructor; assumption.
Qed.

Lemma quebra_preserva_caracteres (t : pystr) :
  sem_espacos (concat (quebrar_linhas t)) = sem_espacos t.
Proof.
  apply (quebrar_linhas_ind
           (fun t ls => sem_espacos (concat ls) = sem_espacos t)).
  - reflexivity.
  - intros t0 _ _. simpl. rewrite app_nil_r. reflexivity.
  - intros t0 l sep rest _ Ht Hsep _ _ IH. subst t0.
    unfold sem_espacos in *. simpl concat. rewrite !filter_app, IH.
    destruct Hsep as [-> | ->]; reflexivity.
Qed.

Lemma comprimento_das_linhas (t : pystr) :
  t <> [] ->
  (length t + 1 <= length (concat (quebrar_linhas t))
                   + length (quebrar_linhas t))%nat.
Proof.
  apply (quebrar_linhas_ind
           (fun t ls => t <> [] ->
                        (length t + 1 <= length (concat ls) + length ls)%nat)).
  - congruence.
  - intros t0 _ _ _. simpl. rewrite app_nil_r. lia.
  - intros t0 l sep rest _ Ht Hsep _ Hne IH _. specialize (IH Hne).
    subst t0. simpl concat. simpl length. rewrite !length_app.
    destruct Hsep as [-> | ->]; simpl; lia.
Qed.

Lemma comprimento_concat_limitado (ls : list pystr) (n : nat) :
  Forall (fun l : pystr => (length l <= n)%nat) ls ->
  (length (concat ls) <= n * length ls)%nat.
Proof.
  induction 1 as [|l ls Hl _ IH]; simpl; [lia|].
  rewrite length_app. lia.
Qed.

Lemma texto_longo_tem_tres_linhas (t : pystr) :
  (2 * max_chars_line + 1 < length t)%nat ->
  (2 < length (quebrar_linhas t))%nat.
Proof.
  intros Hlen.
  assert (t <> []) as Hne by (intros ->; simpl in Hlen; lia).
  pose proof (comprimento_das_linhas t Hne) as Hsum.
  pose proof (comprimento_concat_limitado _ _ (linhas_dentro_do_limite t))
    as Hmax.
  destruct (Nat.le_gt_cases (length (quebrar_linhas t)) 2) as [Hle|Hgt];
    [|exact Hgt].
  exfalso. nia.
Qed.

(** ** The layout engine on its own *)


(** X2. When [gerar_recibo_pdf_memoria] raises, nothing has been written
    to the buffer, and the exception is [KeyError] for a record without
    'valor', [ValueError] for a 'valor' that [float] does not read, and
    [KeyError] for a record without 'nome'. *)
Theorem recibo_falha_sem_documento :
  forall (float_of_str : pystr -> option float) (d : gmap string pystr)
         (st0 st : estado) (x : exn),
    gerar_recibo_pdf_memoria float_of_str d st0 = (Raise x, st) ->
    buffer st = []
    /\ (x = KeyError /\ d !! "valor"%string = None
        \/ x = ValueError
           /\ (exists valor : pystr,
                  d !! "valor"%string = Some valor
                  /\ float_of_str valor = None)
        \/ x = KeyError
           /\ d !! "nome"%string = None
           /\ exists (valor : pystr) (v : float),
                d !! "valor"%string = Some valor
                /\ float_of_str valor = Some v).
Proof.
  intros float_of_str d st0 st x Hraise.
  destruct (d !! "valor"%string) as [valor|] eqn:Hvalor.
  - destruct (float_of_str valor) as [v|] eqn:Hv.
    + destruct (d !! "nome"%string) as [nome|] eqn:Hnome.
      * destruct (recibo_desenhado float_of_str d valor v nome st0
                    Hvalor Hv Hnome) as (ops & Hrun & _).
        rewrite Hrun in Hraise. discriminate Hraise.
      * destruct (recibo_sem_nome float_of_str d valor v st0 Hvalor Hv Hnome)
          as (s & Hrun & Hbuf).
        rewrite Hrun in Hraise. injection Hraise as <- <-.
        split; [exact Hbuf|]. right. right.
        split; [reflexivity|]. split; [reflexivity|].
        exists valor, v. split; [reflexivity|exact Hv].
    + destruct (recibo_valor_invalido float_of_str d valor st0 Hvalor Hv)
        as (s & Hrun & Hbuf).
      rewrite Hrun in Hraise. injection Hraise as <- <-.
      split; [exact Hbuf|]. right. left.
      split; [reflexivity|]. exists valor. split; [reflexivity|exact Hv].
  - destruct (recibo_sem_valor float_of_str d st0 Hvalor) as (s & Hrun & Hbuf).
    rewrite Hrun in Hraise. injection Hraise as <- <-.
    split; [exact Hbuf|]. left. split; reflexivity.
Qed.

Lemma recibo_falha_sem_documento_witness :
  exists st : estado,
    gerar_recibo_pdf_memoria float_ascii
      (<["valor" := py "12,50"]> recibo_exemplo) estado_inicial
      = (Raise ValueError, st)
    /\ buffer st = [].
Proof.
  destruct (gerar_recibo_pdf_memoria float_ascii
              (<["valor" := py "12,50"]> recibo_exemplo) estado_inicial)
    as [[ops|x] st] eqn:Hrun; [vm_compute in Hrun; discriminate Hrun|].
  destruct (recibo_falha_sem_documento float_ascii _ _ st x Hrun)
    as [Hbuf _].
  exists st. split; [|exact Hbuf].
  vm_compute in Hrun. injection Hrun as <- _. reflexivity.
Defined.

(** X3. In every receipt produced, the rows of the itemization table are
    MENSALIDADE with the formatted amount, ALT. CONTRATO and REGULARIZAÇÃO
    with the placeholder "R$ -", and VALOR TOTAL with the same formatted
    amount as MENSALIDADE. *)
Theorem tabela_do_recibo :
  forall (float_of_str : pystr -> option float) (d : gmap string pystr)
         (st0 st : estado) (ops : list op),
    gerar_recibo_pdf_memoria float_of_str d st0 = (Ok ops, st) ->
    exists (valor : pystr) (v : float),
      d !! "valor"%string = Some valor
      /\ float_of_str valor = Some v
      /\ linhas_da_tabela ops =
           [ (py "MENSALIDADE", formatar_valor v);
             (py "ALT. CONTRATO", py "R$ -");
             (py "REGULARIZAÇÃO", py "R$ -");
             (py "VALOR TOTAL", formatar_valor v) ].
Proof.
  intros float_of_str d st0 st ops Hok.
  destruct (recibo_ok_inv float_of_str d st0 st ops Hok)
    as (valor & v & nome & Hvalor & Hv & Hnome).
  destruct (recibo_desenhado float_of_str d valor v nome st0 Hvalor Hv Hnome)
    as (ops' & Hrun & _ & Htab).
  rewrite Hrun in Hok. injection Hok as <- _.
  exists valor, v. auto.
Qed.

Lemma tabela_do_recibo_witness :
  exists (ops : list op) (st : estado),
    gerar_recibo_pdf_memoria float_ascii recibo_exemplo estado_inicial
      = (Ok ops, st)
    /\ linhas_da_tabela ops =
         [ (py "MENSALIDADE", py "R$ 1.234,50");
           (py "ALT. CONTRATO", py "R$ -");
           (py "REGULARIZAÇÃO", py "R$ -");
           (py "VALOR TOTAL", py "R$ 1.234,50") ].
Proof.
  destruct (gerar_recibo_pdf_memoria float_ascii recibo_exemplo estado_inicial)
    as [[ops|x] st] eqn:Hrun; [|vm_compute in Hrun; discriminate Hrun].
  exists ops, st. split; [reflexivity|].
  destruct (tabela_do_recibo float_ascii recibo_exemplo
              estado_inicial st ops Hrun) as (valor & v & Hvalor & Hv & Htab).
  vm_compute in Hvalor. injection Hvalor as <-.
  vm_compute in Hv. injection Hv as <-.
  rewrite Htab. vm_compute. reflexivity.
Defined.

(** X4. The texts of a receipt, in drawing order, are the header, the
    amount, the payer and the label of the words block, then the first two
    lines of the wrapped words (closed by a period) and no further line,
    then the reference line, the table, the signature block and the
    footer. *)
Theorem textos_do_recibo_desenhado :
  forall (float_of_str : pystr -> option float) (d : gmap string pystr)
         (st0 st : estado) (ops : list op),
    gerar_recibo_pdf_memoria float_of_str d st0 = (Ok ops, st) ->
    exists (valor : pystr) (v : float) (nome : pystr),
      d !! "valor"%string = Some valor
      /\ float_of_str valor = Some v
      /\ d !! "nome"%string = Some nome
      /\ textos ops = textos_do_recibo d v nome
      /\ (length (textos ops) <= 26)%nat.
Proof.
  intros float_of_str d st0 st ops Hok.
  destruct (recibo_ok_inv float_of_str d st0 st ops Hok)
    as (valor & v & nome & Hvalor & Hv & Hnome).
  destruct (recibo_desenhado float_of_str d valor v nome st0 Hvalor Hv Hnome)
    as (ops' & Hrun & Htextos & _).
  rewrite Hrun in Hok. injection Hok as <- _.
  exists valor, v, nome. repeat split; try assumption.
  rewrite Htextos. unfold textos_do_recibo.
  rewrite !length_app.
  pose proof (firstn_le_length 2
    (quebrar_linhas (terminar_com_ponto (get d "valor_extenso" [])))) as Hduas.
  revert Hduas.
  generalize (take 2 (quebrar_linhas
                        (terminar_com_ponto (get d "valor_extenso" [])))).
  intros lines Hduas. cbn [length]. lia.
Qed.

Lemma textos_do_recibo_desenhado_witness :
  exists (ops : list op) (st : estado),
    gerar_recibo_pdf_memoria float_ascii recibo_exemplo estado_inicial
      = (Ok ops, st)
    /\ (length (textos ops) <= 26)%nat.
Proof.
  destruct (gerar_recibo_pdf_memoria float_ascii recibo_exemplo estado_inicial)
    as [[ops|x] st] eqn:Hrun; [|vm_compute in Hrun; discriminate Hrun].
  exists ops, st. split; [reflexivity|].
  destruct (textos_do_recibo_desenhado float_ascii recibo_exemplo
              estado_inicial st ops Hrun) as (valor & v & nome & _ & _ & _ & _ & H).
  exact H.
Defined.

(** ** The wrap loop and the closing period *)

(** X5. A text of more than 90 characters is broken at the last space
    among its first 90 characters, and the space is dropped; when these
    hold no space, it is broken after the 90th character. *)
Theorem quebra_no_ultimo_espaco :
  forall t : pystr,
    (90 < length t)%nat ->
    (forall k : nat,
        (k < 90)%nat ->
        t !! k = Some space ->
        (forall j : nat, (k < j < 90)%nat -> t !! j <> Some space) ->
        quebrar_linhas t = take k t :: quebrar_linhas (drop (S k) t))
    /\ ((forall j : nat, (j < 90)%nat -> t !! j <> Some space) ->
        quebrar_linhas t = take 90 t :: quebrar_linhas (drop 90 t)).
Proof.
  intros t Hlen. split.
  - intros k Hk Hat Hlast. apply quebrar_linhas_no_espaco; assumption.
  - intros Hnone. apply quebrar_linhas_sem_espaco; assumption.
Qed.

Lemma quebra_no_ultimo_espaco_witness :
  quebrar_linhas extenso_95 =
    [ py "novecentos e noventa e quatro mil, novecentos e noventa e nove reais e noventa e nove";
      py "centavos." ].
Proof.
  assert (90 < length extenso_95)%nat as Hlen by (vm_compute; lia).
  destruct (quebra_no_ultimo_espaco extenso_95 Hlen) as [Hsoft _].
  rewrite (Hsoft 85%nat); [vm_compute; reflexivity|lia|vm_compute; reflexivity|].
  intros j Hj.
  assert (j = 86 \/ j = 87 \/ j = 88 \/ j = 89)%nat as Hcases by lia.
  destruct Hcases as [-> | [-> | [-> | ->]]]; vm_compute; discriminate.
Defined.

(** X6. No line of the wrapped text has more than 90 characters, and a
    non-empty text of at most 90 characters is a single line. *)
Theorem linhas_cabem_na_caixa :
  forall t : pystr,
    Forall (fun l : pystr => (length l <= 90)%nat) (quebrar_linhas t)
    /\ (t <> [] -> (length t <= 90)%nat -> quebrar_linhas t = [t])
    /\ (t = [] -> quebrar_linhas t = []).
Proof.
  intros t. split; [exact (linhas_dentro_do_limite t)|].
  split; [apply quebrar_linhas_curta|].
  intros ->. apply quebrar_linhas_equation_1.
Qed.

(** X7. Wrapping loses no character other than spaces: the lines put
    together and the text are the same once spaces are removed. *)
Theorem quebra_so_perde_espacos :
  forall t : pystr,
    sem_espacos (concat (quebrar_linhas t)) = sem_espacos t.
Proof. exact quebra_preserva_caracteres. Qed.

(** X8. A text of more than 181 characters wraps into at least three
    lines, so the two lines drawn are not the whole text. *)
Theorem texto_longo_e_cortado :
  forall t : pystr,
    (181 < length t)%nat ->
    (2 < length (quebrar_linhas t))%nat
    /\ take 2 (quebrar_linhas t) <> quebrar_linhas t.
Proof.
  intros t Hlen.
  assert (2 < length (quebrar_linhas t))%nat as Htres
    by (apply texto_longo_tem_tres_linhas; unfold max_chars_line; lia).
  split; [exact Htres|].
  intros H. apply (f_equal length) in H. rewrite length_take in H. lia.
Qed.

Lemma texto_longo_e_cortado_witness :
  (2 < length (quebrar_linhas (replicate 182 97%N)))%nat.
Proof.
  apply (texto_longo_e_cortado (replicate 182 97%N)).
  rewrite length_replicate. lia.
Defined.



(** ** The formatted amount *)

Lemma digits_of_uint_digits (u : Decimal.uint) :
  Forall is_digit (digits_of_uint u).
Proof.
  induction u; simpl; constructor; try assumption; unfold is_digit; lia.
Qed.

Lemma decimal_digits (n : Z) : Forall is_digit (decimal n).
Proof. apply digits_of_uint_digits. Qed.

Lemma group3_Forall (P : N -> Prop) (l : pystr) :
  P comma -> Forall P l -> Forall P (group3 l).
Proof.
  intros Hc. remember (length l) as n eqn:Hn. revert l Hn.
  induction n as [n IH] using lt_wf_ind. intros l Hn Hl.
  destruct l as [|a [|b [|c [|x r]]]]; try exact Hl.
  change (group3 (a :: b :: c :: x :: r))
    with (a :: b :: c :: comma :: group3 (x :: r)).
  inversion Hl as [|? ? Ha Hl1]; subst. inversion Hl1 as [|? ? Hb Hl2]; subst.
  inversion Hl2 as [|? ? Hcc Hl3]; subst.
  repeat (constructor; [assumption|]).
  apply (IH (length (x :: r))); [simpl; lia|reflexivity|assumption].
Qed.

Lemma group_thousands_chars (l : pystr) :
  Forall is_digit l ->
  Forall (fun c : N => is_digit c \/ c = comma) (group_thousands l).
Proof.
  intros Hl. unfold group_thousands.
  apply Forall_rev. apply group3_Forall; [right; reflexivity|].
  apply Forall_rev. eapply Forall_impl; [exact Hl|]. intros c Hc. left. exact Hc.
Qed.

Lemma two_digits_digits (k : Z) :
  exists d1 d2 : N,
    two_digits (k mod 100) = [d1; d2] /\ is_digit d1 /\ is_digit d2.
Proof.
  pose proof (Z.mod_pos_bound k 100 ltac:(lia)) as Hk.
  exists (Z.to_N (48 + k mod 100 / 10)), (Z.to_N (48 + (k mod 100) mod 10)).
  split; [reflexivity|].
  pose proof (Z.mod_pos_bound (k mod 100) 10 ltac:(lia)).
  assert (0 <= k mod 100 / 10 < 10)
    by (split; [apply Z.div_pos; lia|apply Z.div_lt_upper_bound; lia]).
  unfold is_digit. lia.
Qed.

(** The grouping keeps the digits in order and puts a separator after
    every third one, counted from the right. *)
Lemma filter_digits (l : pystr) :
  Forall is_digit l -> filter (fun c : N => c <> comma) l = l.
Proof.
  induction 1 as [|y l Hy _ IH]; [reflexivity|].
  rewrite filter_cons_True by (unfold is_digit, comma in *; lia).
  f_equal. exact IH.
Qed.

Lemma group3_digits (l : pystr) :
  Forall is_digit l -> filter (fun c : N => c <> comma) (group3 l) = l.
Proof.
  remember (length l) as n eqn:Hn. revert l Hn.
  induction n as [n IH] using lt_wf_ind. intros l Hn Hl.
  assert (forall c : N, is_digit c -> c <> comma) as Hne
    by (unfold is_digit, comma; lia).
  destruct l as [|a [|b [|c [|x r]]]];
    [exact (filter_digits _ Hl) ..|].
  change (group3 (a :: b :: c :: x :: r))
    with (a :: b :: c :: comma :: group3 (x :: r)).
  inversion Hl as [|? ? Ha Hl1]; subst. inversion Hl1 as [|? ? Hb Hl2]; subst.
  inversion Hl2 as [|? ? Hcc Hl3]; subst.
  rewrite !filter_cons_True by (apply Hne; assumption).
  rewrite filter_cons_False by (intros H; apply H; reflexivity).
  do 3 f_equal.
  apply (IH (length (x :: r))); [simpl; lia|reflexivity|assumption].
Qed.

Lemma group3_positions (l : pystr) (i : nat) :
  Forall is_digit l ->
  (i < length (group3 l))%nat ->
  group3 l !! i = Some comma <-> (i mod 4 = 3)%nat.
Proof.
  remember (length l) as n eqn:Hn. revert l i Hn.
  induction n as [n IH] using lt_wf_ind. intros l i Hn Hl Hi.
  assert (forall (c : N), Some c = Some comma -> is_digit c -> False) as Hne
    by (unfold is_digit, comma; intros c [= ->] Hc; lia).
  destruct l as [|a [|b [|c [|x r]]]].
  - simpl in Hi. lia.
  - change (group3 [a]) with [a] in *. simpl in Hi.
    inversion Hl; subst. destruct i as [|i]; [|lia]. simpl.
    split; [intros H; exfalso; eapply Hne; [exact H|assumption]|intros H; cbv in H; discriminate H].
  - change (group3 [a; b]) with [a; b] in *. simpl in Hi.
    inversion Hl as [|? ? Ha Hl1]; subst. inversion Hl1; subst.
    destruct i as [|[|i]]; [| |lia]; simpl;
      (split; [intros H; exfalso; eapply Hne; [exact H|assumption]|intros H; cbv in H; discriminate H]).
  - change (group3 [a; b; c]) with [a; b; c] in *. simpl in Hi.
    inversion Hl as [|? ? Ha Hl1]; subst.
    inversion Hl1 as [|? ? Hb Hl2]; subst. inversion Hl2; subst.
    destruct i as [|[|[|i]]]; [| | |lia]; simpl;
      (split; [intros H; exfalso; eapply Hne; [exact H|assumption]|intros H; cbv in H; discriminate H]).
  - change (group3 (a :: b :: c :: x :: r))
      with (a :: b :: c :: comma :: group3 (x :: r)) in *.
    inversion Hl as [|? ? Ha Hl1]; subst.
    inversion Hl1 as [|? ? Hb Hl2]; subst.
    inversion Hl2 as [|? ? Hcc Hl3]; subst.
    destruct i as [|[|[|[|i]]]].
    1-3: simpl; split;
      [intros H; exfalso; eapply Hne; [exact H|assumption]
      |intros H; cbv in H; discriminate H].
    + split; reflexivity.
    + cbn [length] in Hi.
      assert (length (x :: r) < length (a :: b :: c :: x :: r))%nat as Hdec
        by (cbn [length]; lia).
      change ((a :: b :: c :: comma :: group3 (x :: r)) !! S (S (S (S i))))
        with (group3 (x :: r) !! i).
      rewrite (IH (length (x :: r)) Hdec (x :: r) i eq_refl Hl3) by lia.
      replace (S (S (S (S i)))) with (i + 1 * 4)%nat by lia.
      rewrite Nat.Div0.mod_add. reflexivity.
Qed.

(** The three replacements exchange the separators in a text without the
    letter X. *)
Lemma replace_chain (l : pystr) :
  Forall (fun c : N => c <> letter_X) l ->
  replace letter_X dot (replace dot comma (replace comma letter_X l))
    = map trocar_separador l.
Proof.
  induction 1 as [|c l Hc _ IH]; [reflexivity|].
  unfold replace in *. simpl. rewrite IH. f_equal.
  unfold trocar_separador, comma, dot, letter_X in *.
  destruct (c =? 44)%N eqn:E1; [reflexivity|].
  destruct (c =? 46)%N eqn:E2; [reflexivity|].
  destruct (c =? 88)%N eqn:E3; [apply N.eqb_eq in E3; contradiction|].
  reflexivity.
Qed.

Lemma format_comma_2f_sem_X (v : float) :
  Forall (fun c : N => c <> letter_X) (format_comma_2f v).
Proof.
  assert (forall l : pystr,
             Forall (fun c : N => is_digit c \/ c = comma) l ->
             Forall (fun c : N => c <> letter_X) l) as Hgroup.
  { intros l Hl. eapply Forall_impl; [exact Hl|].
    unfold is_digit, comma, letter_X. intros c [Hc | ->]; lia. }
  destruct v as [|s|s m e]; unfold format_comma_2f.
  - vm_compute. repeat constructor; discriminate.
  - destruct s; vm_compute; repeat constructor; discriminate.
  - apply Forall_app_2;
      [destruct s; vm_compute; repeat constructor; discriminate|].
    apply Forall_app_2;
      [apply Hgroup, group_thousands_chars, decimal_digits|].
    apply Forall_app_2; [vm_compute; repeat constructor; discriminate|].
    destruct (two_digits_digits (div_half_even (mag_num m e * 100) (mag_den e)))
      as (d1 & d2 & -> & H1 & H2).
    unfold is_digit, letter_X in *. repeat constructor; lia.
Qed.

Lemma formatar_valor_troca (v : float) :
  formatar_valor v = py "R$ " ++ map trocar_separador (format_comma_2f v).
Proof.
  unfold formatar_valor. rewrite replace_chain.
  - rewrite map_app. reflexivity.
  - apply Forall_app_2; [vm_compute; repeat constructor; discriminate|].
    apply format_comma_2f_sem_X.
Qed.

Lemma filter_rev (P : N -> Prop) `{!forall c : N, Decision (P c)} (l : pystr) :
  filter P (rev l) = rev (filter P l).
Proof.
  induction l as [|a l IH]; [reflexivity|].
  cbn [rev]. rewrite filter_app, IH.
  destruct (decide (P a)) as [Ha|Ha].
  - rewrite !filter_cons_True by exact Ha. rewrite filter_nil. reflexivity.
  - rewrite !filter_cons_False by exact Ha. rewrite filter_nil.
    apply app_nil_r.
Qed.

Lemma trocar_separador_dot (c : N) : trocar_separador c = dot <-> c = comma.
Proof.
  unfold trocar_separador, comma, dot.
  destruct (c =? 44)%N eqn:E1; [apply N.eqb_eq in E1; tauto|].
  apply N.eqb_neq in E1.
  destruct (c =? 46)%N eqn:E2;
    [apply N.eqb_eq in E2|apply N.eqb_neq in E2]; lia.
Qed.

Lemma trocar_separador_digit (c : N) : is_digit c -> trocar_separador c = c.
Proof.
  unfold is_digit, trocar_separador, comma, dot. intros Hc.
  destruct (c =? 44)%N eqn:E1; [apply N.eqb_eq in E1; lia|].
  destruct (c =? 46)%N eqn:E2; [apply N.eqb_eq in E2; lia|]. reflexivity.
Qed.

Lemma filter_trocados (l : pystr) :
  Forall (fun c : N => is_digit c \/ c = comma) l ->
  filter (fun c : N => c <> dot) (map trocar_separador l)
    = filter (fun c : N => c <> comma) l.
Proof.
  induction 1 as [|c l Hc _ IH]; [reflexivity|]. simpl map.
  destruct Hc as [Hc | ->].
  - rewrite trocar_separador_digit by exact Hc.
    rewrite !filter_cons_True by (unfold is_digit, comma, dot in *; lia).
    f_equal. exact IH.
  - change (trocar_separador comma) with dot.
    rewrite !filter_cons_False by (intros H; apply H; reflexivity).
    exact IH.
Qed.

Lemma lookup_trocados (l : pystr) (i : nat) :
  map trocar_separador l !! i = Some dot <-> l !! i = Some comma.
Proof.
  revert i. induction l as [|c l IH]; intros i; [split; discriminate|].
  destruct i as [|i]; [|apply IH]. simpl. split.
  - intros [= H]. apply trocar_separador_dot in H. congruence.
  - intros [= ->]. reflexivity.
Qed.

(** X10. The three replacements exchange comma and dot in the whole
    formatted amount, for every float.  For a finite one the result is
    "R$ ", a minus sign when the sign bit is set, the integer digits with
    a dot before every group of three counted from the right, a comma and
    exactly two digits. *)
Theorem formatar_valor_formato_br :
  forall v : float,
    formatar_valor v = py "R$ " ++ map trocar_separador (format_comma_2f v)
    /\ forall (s : bool) (m e : Z),
         v = Fin s m e ->
         exists (inteiro : pystr) (d1 d2 : N),
           formatar_valor v =
             py "R$ " ++ (if s then py "-" else []) ++ inteiro
               ++ [comma; d1; d2]
           /\ filter (fun c : N => c <> dot) inteiro =
                decimal (div_half_even (mag_num m e * 100) (mag_den e) / 100)
           /\ (forall i : nat,
                  (i < length inteiro)%nat ->
                  rev inteiro !! i = Some dot <-> (i mod 4 = 3)%nat)
           /\ Forall (fun c : N => is_digit c \/ c = dot) inteiro
           /\ [d1; d2] =
                two_digits
                  (div_half_even (mag_num m e * 100) (mag_den e) mod 100)
           /\ is_digit d1 /\ is_digit d2.
Proof.
  intros v. split; [apply formatar_valor_troca|].
  intros s m e ->. rewrite formatar_valor_troca.
  set (h := div_half_even (mag_num m e * 100) (mag_den e)).
  destruct (two_digits_digits h) as (d1 & d2 & Htwo & H1 & H2).
  pose proof (decimal_digits (h / 100)) as Hdig.
  exists (map trocar_separador (group_thousands (decimal (h / 100)))), d1, d2.
  split; [|split; [|split; [|split; [|split; [|split; assumption]]]]].
  - unfold format_comma_2f. fold h. rewrite Htwo. rewrite !map_app.
    f_equal. f_equal; [destruct s; reflexivity|]. f_equal.
    change (map trocar_separador (py ".") ++ map trocar_separador [d1; d2])
      with (comma :: map trocar_separador [d1; d2]).
    simpl map. rewrite !trocar_separador_digit by assumption. reflexivity.
  - rewrite filter_trocados by (apply group_thousands_chars; exact Hdig).
    unfold group_thousands. rewrite filter_rev.
    rewrite group3_digits by (apply Forall_rev; exact Hdig).
    apply rev_involutive.
  - intros i Hi. rewrite <- map_rev. rewrite lookup_trocados.
    unfold group_thousands. rewrite rev_involutive.
    apply group3_positions; [apply Forall_rev; exact Hdig|].
    rewrite length_map in Hi. unfold group_thousands in Hi.
    rewrite length_rev in Hi. exact Hi.
  - apply Forall_map.
    eapply Forall_impl; [apply group_thousands_chars; exact Hdig|].
    intros c [Hc | ->]; [left|right; reflexivity].
    rewrite trocar_separador_digit by exact Hc. exact Hc.
  - symmetry. exact Htwo.
Qed.

Lemma formatar_valor_formato_br_witness :
  formatar_valor <$> float_ascii (py "1234567.891") =
    Some (py "R$ 1.234.567,89").
Proof.
  destruct (float_ascii (py "1234567.891")) as [v|] eqn:Hv;
    [|vm_compute in Hv; discriminate Hv].
  simpl. f_equal.
  rewrite (proj1 (formatar_valor_formato_br v)).
  vm_compute in Hv. injection Hv as <-. vm_compute. reflexivity.
Defined.

(** ** The database counters *)

Lemma maior_id_ge {A : Type} (t : gmap Z A) (k : Z) (x : A) :
  t !! k = Some x -> k <= maior_id t.
Proof.
  unfold maior_id. revert k x.
  apply (map_fold_weak_ind
           (fun (r : Z) (m : gmap Z A) =>
              forall (k : Z) (x : A), m !! k = Some x -> k <= r)).
  - intros k x H. rewrite lookup_empty in H. discriminate H.
  - intros i y m r Hi IH k x Hk.
    destruct (decide (i = k)) as [->|Hne]; [lia|].
    rewrite lookup_insert_ne in Hk by exact Hne.
    specialize (IH k x Hk). lia.
Qed.

Lemma proximo_id_novo {A : Type} (seq : Z) (t : gmap Z A) :
  t !! proximo_id seq t = None
  /\ seq < proximo_id seq t
  /\ forall (k : Z) (x : A), t !! k = Some x -> k < proximo_id seq t.
Proof.
  assert (forall (k : Z) (x : A), t !! k = Some x -> k < proximo_id seq t)
    as Hlt.
  { intros k x Hk. pose proof (maior_id_ge t k x Hk). unfold proximo_id. lia. }
  split; [|split; [unfold proximo_id; lia|exact Hlt]].
  destruct (t !! proximo_id seq t) as [x|] eqn:E; [|reflexivity].
  specialize (Hlt _ _ E). lia.
Qed.

(** ** [str.strip] *)

Lemma str_lstrip_nil (s : pystr) :
  str_lstrip s = [] <-> Forall (fun c : N => py_isspace c = true) s.
Proof.
  induction s as [|c s IH]; simpl; [split; [constructor|reflexivity]|].
  destruct (py_isspace c) eqn:E.
  - rewrite IH. split; [intros H; constructor; assumption|].
    intros H. inversion H; assumption.
  - split; [discriminate|]. intros H. inversion H; congruence.
Qed.

Lemma str_lstrip_head (s : pystr) (c : N) (r : pystr) :
  str_lstrip s = c :: r -> py_isspace c = false.
Proof.
  induction s as [|a s IH]; simpl; [discriminate|].
  destruct (py_isspace a) eqn:E; [exact IH|]. intros [= <- _]. exact E.
Qed.

Lemma str_strip_nil (s : pystr) :
  str_strip s = [] <-> Forall (fun c : N => py_isspace c = true) s.
Proof.
  unfold str_strip. split.
  - intros H. apply (f_equal (@rev N)) in H. rewrite rev_involutive in H.
    simpl in H. apply str_lstrip_nil in H. apply Forall_rev in H.
    rewrite rev_involutive in H.
    destruct (str_lstrip s) as [|c r] eqn:E; [apply str_lstrip_nil; exact E|].
    inversion H as [|? ? Hc _]; subst.
    rewrite (str_lstrip_head s c r E) in Hc. discriminate Hc.
  - intros H. apply str_lstrip_nil in H. rewrite H. reflexivity.
Qed.

Lemma vazio_true (s : pystr) : vazio s = true <-> s = [].
Proof. destruct s; simpl; split; congruence. Qed.

(** ** The route [/generate] *)

Section GenerateFacts.

Variable float_of_str : pystr -> option float.
Variable num2words : Z -> result pystr.



End GenerateFacts.

Lemma valor_por_extenso_nao_finito (float_of_str : pystr -> option float)
    (num2words : Z -> result pystr) (value : pystr) :
  (forall b : bool,
      float_of_str value = Some (Inf b) ->
      valor_por_extenso float_of_str num2words value = Raise OverflowError)
  /\ (float_of_str value = Some NaN ->
      valor_por_extenso float_of_str num2words value = Raise ValueError).
Proof.
  split; [intros b Hv|intros Hv]; unfold valor_por_extenso; rewrite Hv;
    reflexivity.
Qed.

Section GenerateTheorems.

Variable float_of_str : pystr -> option float.
Variable num2words : Z -> result pystr.

Lemma generate_rejeita_aux (t : relogio) (form : gmap string pystr)
    (st : sessao) :
  (em_branco (get form "nome" []) \/ em_branco (get form "valor" []) ->
   generate float_of_str num2words t form st =
     (Responde (Redirect "index"),
      flash (py "Preencha pelo menos o Nome e o Valor.") st))
  /\ (~ em_branco (get form "nome" []) ->
      ~ em_branco (get form "valor" []) ->
      float_of_str (str_strip (get form "valor" [])) = None ->
      generate float_of_str num2words t form st =
        (Responde (Redirect "index"),
         flash
           (py "Valor inválido. Use ponto como separador decimal (ex: 431.00)")
           st)).
Proof.
  unfold em_branco. split.
  - intros H. unfold generate. cbv zeta.
    destruct H as [H|H]; apply str_strip_nil in H; rewrite H;
      [reflexivity|]. rewrite orb_true_r. reflexivity.
  - intros Hn Hv Hf. unfold generate. cbv zeta. rewrite Hf.
    destruct (str_strip (get form "nome" [])) as [|a r] eqn:En;
      [exfalso; apply Hn, str_strip_nil; exact En|].
    destruct (str_strip (get form "valor" [])) as [|b q] eqn:Ev;
      [exfalso; apply Hv, str_strip_nil; exact Ev|].
    reflexivity.
Qed.


End GenerateTheorems.

(** X11. [generate] turns the request down, with a flashed message and a
    redirect to the index and without touching the database, when the
    name or the amount is missing or made of blanks only, and when the
    amount is not read by [float]. *)
Theorem generate_rejeita :
  forall (float_of_str : pystr -> option float)
         (num2words : Z -> result pystr)
         (t : relogio) (form : gmap string pystr) (st : sessao),
    (em_branco (get form "nome" []) \/ em_branco (get form "valor" []) ->
     generate float_of_str num2words t form st =
       (Responde (Redirect "index"),
        flash (py "Preencha pelo menos o Nome e o Valor.") st))
    /\ (~ em_branco (get form "nome" []) ->
        ~ em_branco (get form "valor" []) ->
        float_of_str (str_strip (get form "valor" [])) = None ->
        generate float_of_str num2words t form st =
          (Responde (Redirect "index"),
           flash
             (py "Valor inválido. Use ponto como separador decimal (ex: 431.00)")
             st)).
Proof. exact generate_rejeita_aux. Qed.

Lemma generate_rejeita_witness :
  generate float_ascii num2words_ate_999 relogio_exemplo
    (<["valor" := py "   "]> formulario_exemplo) (Sessao banco_vazio [])
  = (Responde (Redirect "index"),
     Sessao banco_vazio [py "Preencha pelo menos o Nome e o Valor."]).
Proof.
  rewrite (proj1 (generate_rejeita float_ascii num2words_ate_999
                    relogio_exemplo
                    (<["valor" := py "   "]> formulario_exemplo)
                    (Sessao banco_vazio []))).
  - reflexivity.
  - right. vm_compute. repeat constructor.
Defined.





(** X14. An amount that [float] reads as an infinity or as a NaN passes
    the check of [generate] and then makes [valor_por_extenso] raise
    ([OverflowError], [ValueError]): [generate] raises it before any
    message is flashed or any row is stored. *)
Theorem generate_valor_nao_finito :
  forall (float_of_str : pystr -> option float)
         (num2words : Z -> result pystr)
         (t : relogio) (form : gmap string pystr) (st : sessao),
    str_strip (get form "nome" []) <> [] ->
    str_strip (get form "valor" []) <> [] ->
    (forall b : bool,
        float_of_str (str_strip (get form "valor" [])) = Some (Inf b) ->
        generate float_of_str num2words t form st
          = (Falha (Excecao OverflowError), st))
    /\ (float_of_str (str_strip (get form "valor" [])) = Some NaN ->
        generate float_of_str num2words t form st
          = (Falha (Excecao ValueError), st)).
Proof.
  intros float_of_str num2words t form st Hn Hval.
  destruct (valor_por_extenso_nao_finito float_of_str num2words
              (str_strip (get form "valor" []))) as [Hinf Hnan].
  split; [intros b Hv; specialize (Hinf b Hv)|intros Hv; specialize (Hnan Hv)];
    unfold generate; cbv zeta; rewrite Hv;
    [rewrite Hinf|rewrite Hnan];
    destruct (str_strip (get form "nome" [])); try congruence;
    destruct (str_strip (get form "valor" [])); try congruence;
    reflexivity.
Qed.

Lemma generate_valor_nao_finito_witness :
  generate float_ascii num2words_ate_999 relogio_exemplo
    (<["valor" := py "inf"]> formulario_exemplo) (Sessao banco_vazio [])
  = (Falha (Excecao OverflowError), Sessao banco_vazio []).
Proof.
  assert (str_strip (get (<["valor" := py "inf"]> formulario_exemplo) "nome" [])
          <> []) as Hn by (vm_compute; intros H; discriminate H).
  assert (str_strip (get (<["valor" := py "inf"]> formulario_exemplo) "valor" [])
          <> []) as Hv by (vm_compute; intros H; discriminate H).
  apply (proj1 (generate_valor_nao_finito float_ascii num2words_ate_999
                  relogio_exemplo
                  (<["valor" := py "inf"]> formulario_exemplo)
                  (Sessao banco_vazio []) Hn Hv) false).
  vm_compute. reflexivity.
Defined.

(** X15. The name of the file is "recibo_", the first 20 characters of
    the name with every space turned into an underscore, "_", the stamp
    of the clock and ".pdf". *)
Theorem nome_do_arquivo_sem_espacos :
  forall nome stamp : pystr,
    exists parte : pystr,
      nome_do_arquivo nome stamp =
        py "recibo_" ++ parte ++ py "_" ++ stamp ++ py ".pdf"
      /\ length parte = Nat.min 20 (length nome)
      /\ (forall i : nat, parte !! i <> Some space)
      /\ (forall (i : nat) (c : N),
             nome !! i = Some c -> (i < 20)%nat ->
             parte !! i = Some (if (c =? space)%N then 95%N else c)).
Proof.
  intros nome stamp. exists (replace space 95 (take 20 nome)).
  split; [reflexivity|]. unfold replace.
  split; [rewrite length_map, length_take; reflexivity|]. split.
  - intros i H. revert i H. generalize (take 20 nome).
    induction l as [|a l IH]; intros [|i] H; simpl in H; try discriminate H.
    + injection H as H. unfold space in H.
      destruct (a =? 32)%N eqn:E; [discriminate H|].
      apply N.eqb_neq in E. contradiction.
    + exact (IH i H).
  - intros i c Hc Hi.
    assert (take 20 nome !! i = Some c) as Ht
      by (rewrite lookup_take_lt by exact Hi; exact Hc).
    clear Hc Hi. revert i Ht. generalize (take 20 nome).
    induction l as [|a l IH]; intros [|i] H; simpl in H; try discriminate H.
    + injection H as ->. reflexivity.
    + exact (IH i H).
Qed.

(** X16. The route [/extenso] answers with the empty text when the
    'valor' argument is not read by [float] (as when it is missing and
    [float] does not read the empty text), and raises [OverflowError] or
    [ValueError] when it is read as an infinity or as a NaN. *)
Theorem extenso_api_bordas :
  forall (float_of_str : pystr -> option float)
         (num2words : Z -> result pystr) (args : gmap string pystr),
    (float_of_str (get args "valor" []) = None ->
     extenso_api float_of_str num2words args = Responde (Texto []))
    /\ (args !! "valor"%string = None -> float_of_str [] = None ->
        extenso_api float_of_str num2words args = Responde (Texto []))
    /\ (forall b : bool,
           float_of_str (get args "valor" []) = Some (Inf b) ->
           extenso_api float_of_str num2words args
             = Falha (Excecao OverflowError))
    /\ (float_of_str (get args "valor" []) = Some NaN ->
        extenso_api float_of_str num2words args = Falha (Excecao ValueError)).
Proof.
  intros float_of_str num2words args.
  destruct (valor_por_extenso_nao_finito float_of_str num2words
              (get args "valor" [])) as [Hinf Hnan].
  assert (float_of_str (get args "valor" []) = None ->
          extenso_api float_of_str num2words args = Responde (Texto []))
    as Hnone.
  { intros Hv. unfold extenso_api, valor_por_extenso. cbv zeta.
    rewrite Hv. reflexivity. }
  split; [exact Hnone|]. split; [|split].
  - intros Hmiss Hempty. apply Hnone. unfold get. rewrite Hmiss. exact Hempty.
  - intros b Hv. unfold extenso_api. cbv zeta. rewrite (Hinf b Hv).
    reflexivity.
  - intros Hv. unfold extenso_api. cbv zeta. rewrite (Hnan Hv). reflexivity.
Qed.

Lemma extenso_api_bordas_witness :
  extenso_api float_ascii num2words_ate_999 ∅ = Responde (Texto [])
  /\ extenso_api float_ascii num2words_ate_999 (<["valor" := py "-inf"]> ∅)
     = Falha (Excecao OverflowError).
Proof.
  destruct (extenso_api_bordas float_ascii num2words_ate_999 ∅)
    as (_ & Hmiss & _).
  destruct (extenso_api_bordas float_ascii num2words_ate_999
              (<["valor" := py "-inf"]> ∅)) as (_ & _ & Hinf & _).
  split.
  - apply Hmiss; vm_compute; reflexivity.
  - apply (Hinf true). vm_compute. reflexivity.
Defined.

(** ** The customer registry *)

Lemma add_client_com_nome
    (ordenar_por_nome : gmap Z cliente -> list (Z * cliente))
    (dia_prepop dia_pagina : pystr) (form : gmap string pystr)
    (st : sessao) (n : pystr) :
  form !! "nome"%string = Some n ->
  let id := proximo_id (seq_clientes (db st)) (clientes (db st)) in
  let c := Cliente n (form !! "cpf_cnpj"%string)
             (form !! "observacao"%string) in
  let tabela := <[id := c]> (clientes (db st)) in
  add_client ordenar_por_nome dia_prepop dia_pagina form st =
    (Responde
       (Pagina (ordenar_por_nome tabela)
          (Some (Prepop n (form !! "cpf_cnpj"%string) [] [] dia_prepop []
                   (ou_vazio (form !! "observacao"%string))))
          dia_pagina),
     Sessao (Banco tabela id (recibos (db st)) (seq_recibos (db st)))
       (flashes st
          ++ [py "Cliente adicionado e carregado no formulário."])).
Proof.
  intros Hn id c tabela.
  unfold add_client, inserir_cliente. cbv zeta. rewrite Hn.
  fold id. cbn [clientes]. rewrite lookup_insert_eq.
  generalize (py "Cliente adicionado e carregado no formulário.").
  intros msg. reflexivity.
Qed.

(** X17. [add_client] stores the submitted customer under an identifier
    that no row has and that is larger than every identifier in the table
    and than the counter, leaves the other rows and the receipts as they
    were, and pre-fills the form with the stored name, tax id and note (a
    missing or empty note as the empty text); without a 'nome' field it
    raises [IntegrityError] and changes nothing. *)
Theorem add_client_registra :
  forall (ordenar_por_nome : gmap Z cliente -> list (Z * cliente))
         (dia_prepop dia_pagina : pystr) (form : gmap string pystr)
         (st : sessao),
    (forall n : pystr,
        form !! "nome"%string = Some n ->
        let id := proximo_id (seq_clientes (db st)) (clientes (db st)) in
        let c := Cliente n (form !! "cpf_cnpj"%string)
                   (form !! "observacao"%string) in
        let tabela := <[id := c]> (clientes (db st)) in
        add_client ordenar_por_nome dia_prepop dia_pagina form st =
          (Responde
             (Pagina (ordenar_por_nome tabela)
                (Some (Prepop n (form !! "cpf_cnpj"%string) [] [] dia_prepop []
                         (ou_vazio (form !! "observacao"%string))))
                dia_pagina),
           Sessao (Banco tabela id (recibos (db st)) (seq_recibos (db st)))
             (flashes st
                ++ [py "Cliente adicionado e carregado no formulário."]))
        /\ clientes (db st) !! id = None
        /\ seq_clientes (db st) < id
        /\ (forall (k : Z) (x : cliente),
               clientes (db st) !! k = Some x ->
               k < id /\ tabela !! k = Some x))
    /\ (form !! "nome"%string = None ->
        add_client ordenar_por_nome dia_prepop dia_pagina form st
          = (Falha IntegrityError, st)).
Proof.
  intros ordenar_por_nome dia_prepop dia_pagina form st. split.
  - intros n Hn id c tabela.
    destruct (proximo_id_novo (seq_clientes (db st)) (clientes (db st)))
      as (Hfree & Hseq & Hlt). fold id in Hfree, Hseq, Hlt.
    split; [|split; [exact Hfree|split; [exact Hseq|]]].
    + exact (add_client_com_nome ordenar_por_nome dia_prepop dia_pagina
               form st n Hn).
    + intros k x Hk. specialize (Hlt k x Hk). split; [exact Hlt|].
      unfold tabela. rewrite lookup_insert_ne by lia. exact Hk.
  - intros Hn. unfold add_client, inserir_cliente. cbv zeta. rewrite Hn.
    reflexivity.
Qed.

Lemma add_client_registra_witness :
  snd (add_client (fun t => map_to_list t) (py "15/01/2024") (py "15/01/2024")
         (<["nome" := py "Maria"]> ∅) (Sessao banco_vazio []))
  = Sessao (Banco (<[1 := Cliente (py "Maria") None None]> ∅) 1 ∅ 0)
      [py "Cliente adicionado e carregado no formulário."].
Proof.
  destruct (add_client_registra (fun t => map_to_list t) (py "15/01/2024")
              (py "15/01/2024") (<["nome" := py "Maria"]> ∅)
              (Sessao banco_vazio [])) as [Hadd _].
  assert ((<["nome"%string := py "Maria"]> ∅ : gmap string pystr)
            !! "nome"%string = Some (py "Maria")) as Hn
    by (vm_compute; reflexivity).
  destruct (Hadd (py "Maria") Hn) as (Hrun & _).
  rewrite Hrun. vm_compute. reflexivity.
Defined.






Lemma remover_varios_seq (cids : list Z) (st : sessao) :
  seq_clientes (db (remover_varios cids st)) = seq_clientes (db st)
  /\ forall (k : Z) (x : cliente),
       clientes (db (remover_varios cids st)) !! k = Some x ->
       clientes (db st) !! k = Some x.
Proof.
  unfold remover_varios. revert st.
  induction cids as [|cid cids IH]; intros st; [split; auto|].
  cbn [fold_left]. destruct (IH (snd (delete_client cid st))) as [Hs Hk].
  split; [rewrite Hs; reflexivity|].
  intros k x H. specialize (Hk k x H).
  unfold delete_client, flash, com_banco, remover_cliente in Hk.
  cbn [snd db clientes] in Hk.
  apply lookup_delete_Some in Hk as [_ Hk]. exact Hk.
Qed.

(** X20. Identifiers of customers are not given twice: after a customer
    is added and any customers are removed, the one added next gets a
    larger identifier than the first. *)
Theorem identificadores_nao_reutilizados :
  forall (ordenar_por_nome : gmap Z cliente -> list (Z * cliente))
         (d1 d2 d3 d4 : pystr) (form form' : gmap string pystr)
         (cids : list Z) (st : sessao) (n n' : pystr),
    form !! "nome"%string = Some n ->
    form' !! "nome"%string = Some n' ->
    let st1 := snd (add_client ordenar_por_nome d1 d2 form st) in
    let st2 := remover_varios cids st1 in
    let st3 := snd (add_client ordenar_por_nome d3 d4 form' st2) in
    clientes (db st1) !! seq_clientes (db st1) =
      Some (Cliente n (form !! "cpf_cnpj"%string)
              (form !! "observacao"%string))
    /\ clientes (db st3) !! seq_clientes (db st3) =
         Some (Cliente n' (form' !! "cpf_cnpj"%string)
                 (form' !! "observacao"%string))
    /\ seq_clientes (db st1) < seq_clientes (db st3).
Proof.
  intros ordenar_por_nome d1 d2 d3 d4 form form' cids st n n' Hn Hn'
         st1 st2 st3.
  pose proof (add_client_com_nome ordenar_por_nome d1 d2 form st n Hn)
    as Hrun1.
  pose proof (add_client_com_nome ordenar_por_nome d3 d4 form' st2 n' Hn')
    as Hrun3.
  cbv zeta in Hrun1, Hrun3.
  destruct (proximo_id_novo (seq_clientes (db st2)) (clientes (db st2)))
    as (_ & Hseq & _).
  destruct (remover_varios_seq cids st1) as [Hs2 _]. fold st2 in Hs2.
  subst st3. rewrite Hrun3. cbn [snd db clientes seq_clientes].
  rewrite lookup_insert_eq.
  assert (seq_clientes (db st2) <
          proximo_id (seq_clientes (db st2)) (clientes (db st2))) as Hlt
    by exact Hseq.
  rewrite Hs2 in Hlt at 1.
  split; [|split; [reflexivity|exact Hlt]].
  subst st1. rewrite Hrun1. cbn [snd db clientes seq_clientes].
  apply lookup_insert_eq.
Qed.

Lemma identificadores_nao_reutilizados_witness :
  let ordem := fun t : gmap Z cliente => map_to_list t in
  let st1 :=
    snd (add_client ordem [] [] (<["nome"%string := py "Maria"]> ∅)
           (Sessao banco_vazio [])) in
  let st3 :=
    snd (add_client ordem [] [] (<["nome"%string := py "Ana"]> ∅)
           (remover_varios [1] st1)) in
  seq_clientes (db st1) < seq_clientes (db st3).
Proof.
  intros ordem st1 st3.
  assert ((<["nome"%string := py "Maria"]> ∅ : gmap string pystr)
            !! "nome"%string = Some (py "Maria")) as Hn
    by (vm_compute; reflexivity).
  assert ((<["nome"%string := py "Ana"]> ∅ : gmap string pystr)
            !! "nome"%string = Some (py "Ana")) as Hn'
    by (vm_compute; reflexivity).
  exact (proj2 (proj2 (identificadores_nao_reutilizados ordem [] [] [] []
                         (<["nome"%string := py "Maria"]> ∅)
                         (<["nome"%string := py "Ana"]> ∅) [1]
                         (Sessao banco_vazio []) (py "Maria") (py "Ana")
                         Hn Hn'))).
Defined.

(** ** The arithmetic of the amount writer *)

Lemma div_half_even_bounds (a b c : Z) :
  0 <= a -> 0 < b -> a <= c * b -> 0 <= div_half_even a b <= c.
Proof.
  intros Ha Hb Hc. unfold div_half_even.
  pose proof (Z.div_mod a b ltac:(lia)) as Hdm.
  pose proof (Z.mod_pos_bound a b Hb) as Hr.
  assert (0 <= a / b) as Hq by (apply Z.div_pos; lia).
  assert (a / b <= c) as Hqc.
  { apply Z.div_le_upper_bound; [lia|]. lia. }
  assert (a / b = c -> a mod b = 0) as Hex by nia.
  destruct (Z.compare_spec (2 * (a mod b)) b) as [He|Hl|Hg].
  - destruct (Z.even (a / b)); [lia|].
    destruct (Z.eq_dec (a / b) c) as [E|E]; [specialize (Hex E); lia|lia].
  - lia.
  - destruct (Z.eq_dec (a / b) c) as [E|E]; [specialize (Hex E); lia|lia].
Qed.

Lemma div_half_even_exact (c b : Z) :
  0 < b -> div_half_even (c * b) b = c.
Proof.
  intros Hb. unfold div_half_even.
  rewrite Z.div_mul by lia. rewrite Z.mod_mul by lia.
  destruct (Z.compare_spec (2 * 0) b); [lia|reflexivity|lia].
Qed.

Lemma ratio_log2_le (n d : Z) : ratio_log2 n d <= Z.log2 n - Z.log2 d.
Proof.
  unfold ratio_log2. cbv zeta.
  destruct (ratio_ge_pow2 n d (Z.log2 n - Z.log2 d)); lia.
Qed.

Lemma ratio_log2_inteiro (n : Z) : 0 < n -> ratio_log2 n 1 = Z.log2 n.
Proof.
  intros Hn. unfold ratio_log2, ratio_ge_pow2. cbv zeta.
  change (Z.log2 1) with 0. rewrite Z.sub_0_r.
  pose proof (Z.log2_nonneg n) as Hl.
  destruct (Z.leb_spec 0 (Z.log2 n)) as [_|]; [|lia].
  pose proof (Z.log2_spec n Hn) as [Hlo _].
  destruct (Z.leb_spec (1 * 2 ^ Z.log2 n) n) as [_|]; [reflexivity|lia].
Qed.

(** A magnitude of at most [c], for an integer [c] below [2^51], rounds
    to a finite float of at most [c] with a negative exponent. *)
Lemma round_ratio_limitado (s : bool) (n d c : Z) :
  0 <= n -> 0 < d -> 0 < c < 2 ^ 51 -> n <= c * d ->
  exists m1 e1 : Z,
    round_ratio s n d = Fin s m1 e1
    /\ e1 < 0 /\ 0 <= m1 <= c * 2 ^ (- e1).
Proof.
  intros Hn Hd Hc Hnd. unfold round_ratio.
  destruct (Z.eqb_spec n 0) as [->|Hn0].
  { exists 0, emin. split; [reflexivity|]. unfold emin.
    split; [lia|]. assert (0 < 2 ^ (- -1074)) by (apply Z.pow_pos_nonneg; lia).
    nia. }
  cbv zeta.
  assert (Z.log2 c <= 50) as Hlc.
  { assert (Z.log2 c < 51) by (apply Z.log2_lt_pow2; lia). lia. }
  assert (Z.log2 n <= Z.log2 c + Z.log2 d + 1) as Hln.
  { etransitivity; [apply Z.log2_le_mono; exact Hnd|].
    apply Z.log2_mul_above; lia. }
  pose proof (ratio_log2_le n d) as Hrl.
  unfold prec, emin, emax in *.
  set (e := Z.max (ratio_log2 n d - (53 - 1)) (-1074)).
  assert (-1074 <= e <= -1) as He by (unfold e; lia).
  destruct (Z.leb_spec 0 e) as [|_]; [lia|].
  assert (0 < 2 ^ (- e)) as Hpe by (apply Z.pow_pos_nonneg; lia).
  pose proof (div_half_even_bounds (n * 2 ^ (- e)) d (c * 2 ^ (- e))
                ltac:(nia) Hd ltac:(nia)) as Hm.
  set (m := div_half_even (n * 2 ^ (- e)) d) in *.
  change (2 ^ 53) with 9007199254740992.
  change (2 ^ (53 - 1)) with 4503599627370496.
  change (2 ^ 51) with 2251799813685248 in Hc.
  destruct (Z.eqb_spec m 9007199254740992) as [Em|Em].
  - assert (3 <= - e) as He3.
    { destruct (Z_lt_le_dec (- e) 3) as [Hlt|]; [|assumption].
      assert (2 ^ (- e) <= 2 ^ 2) by (apply Z.pow_le_mono_r; lia).
      change (2 ^ 2) with 4 in *. nia. }
    destruct (Z.gtb_spec (e + 1) 971) as [|_]; [lia|].
    exists 4503599627370496, (e + 1). split; [reflexivity|].
    split; [lia|].
    replace (- e) with (Z.succ (- (e + 1))) in Hm by lia.
    rewrite Z.pow_succ_r in Hm by lia. lia.
  - destruct (Z.gtb_spec e 971) as [|_]; [lia|].
    exists m, e. split; [reflexivity|]. split; [lia|]. lia.
Qed.

(** An integer below [2^53] is a float exactly. *)
Lemma round_ratio_inteiro (s : bool) (q : Z) :
  0 < q < 2 ^ 53 ->
  round_ratio s q 1 = Fin s (q * 2 ^ (52 - Z.log2 q)) (Z.log2 q - 52).
Proof.
  intros Hq. unfold round_ratio.
  destruct (Z.eqb_spec q 0) as [|_]; [lia|]. cbv zeta.
  rewrite ratio_log2_inteiro by lia.
  pose proof (Z.log2_nonneg q) as Hl0.
  assert (Z.log2 q < 53) as Hl1 by (apply Z.log2_lt_pow2; lia).
  pose proof (Z.log2_spec q ltac:(lia)) as [_ Hhi].
  unfold prec, emin, emax.
  replace (Z.max (Z.log2 q - (53 - 1)) (-1074)) with (Z.log2 q - 52) by lia.
  set (L := Z.log2 q) in *.
  assert (q * 2 ^ (52 - L) < 2 ^ 53) as Hm.
  { replace 53 with (Z.succ L + (52 - L)) by lia.
    rewrite Z.pow_add_r by lia.
    assert (0 < 2 ^ (52 - L)) by (apply Z.pow_pos_nonneg; lia). nia. }
  assert ((if 0 <=? L - 52
           then div_half_even q (1 * 2 ^ (L - 52))
           else div_half_even (q * 2 ^ (- (L - 52))) 1)
          = q * 2 ^ (52 - L)) as ->.
  { destruct (Z.leb_spec 0 (L - 52)).
    - replace L with 52 by lia. change (1 * 2 ^ (52 - 52)) with 1.
      change (2 ^ (52 - 52)) with 1.
      transitivity (div_half_even (q * 1) 1);
        [f_equal; lia|rewrite div_half_even_exact; lia].
    - replace (- (L - 52)) with (52 - L) by lia.
      transitivity (div_half_even (q * 2 ^ (52 - L) * 1) 1);
        [f_equal; lia|apply div_half_even_exact; lia]. }
  destruct (Z.eqb_spec (q * 2 ^ (52 - L)) (2 ^ 53)) as [|_]; [lia|].
  destruct (Z.gtb_spec (L - 52) 971) as [|_]; [lia|]. reflexivity.
Qed.

(** The value of the float of an integer below [2^53] is the integer. *)
Lemma mag_inteiro (q : Z) :
  0 < q < 2 ^ 53 ->
  let k := q * 2 ^ (52 - Z.log2 q) in
  let f := Z.log2 q - 52 in
  mag_num k f = q * mag_den f /\ 0 < mag_den f.
Proof.
  intros Hq k f. unfold mag_num, mag_den, k, f.
  pose proof (Z.log2_nonneg q) as Hl0.
  assert (Z.log2 q < 53) as Hl1 by (apply Z.log2_lt_pow2; lia).
  destruct (Z.leb_spec 0 (Z.log2 q - 52)).
  - replace (Z.log2 q) with 52 by lia.
    change (2 ^ (52 - 52)) with 1. lia.
  - replace (- (Z.log2 q - 52)) with (52 - Z.log2 q) by lia.
    split; [reflexivity|]. apply Z.pow_pos_nonneg; lia.
Qed.

(** A float in form with a non-negative exponent is the float of its own
    integer value. *)
Lemma round_ratio_grande (s : bool) (m e : Z) :
  2 ^ 52 <= m < 2 ^ 53 -> 0 <= e <= emax ->
  round_ratio s (m * 2 ^ e) 1 = Fin s m e.
Proof.
  intros Hm He. unfold emax in He. unfold round_ratio.
  assert (0 < 2 ^ e) as Hpe by (apply Z.pow_pos_nonneg; lia).
  assert (0 < m) as Hm0.
  { change (2 ^ 52) with 4503599627370496 in Hm. lia. }
  destruct (Z.eqb_spec (m * 2 ^ e) 0) as [|_]; [nia|]. cbv zeta.
  rewrite ratio_log2_inteiro by nia.
  rewrite Z.log2_mul_pow2 by lia.
  rewrite (Z.log2_unique m 52) by (change (Z.succ 52) with 53; lia).
  unfold prec, emin, emax.
  replace (Z.max (e + 52 - (53 - 1)) (-1074)) with e by lia.
  destruct (Z.leb_spec 0 e) as [_|]; [|lia].
  rewrite Z.mul_1_l, div_half_even_exact by lia.
  destruct (Z.eqb_spec m (2 ^ 53)) as [|_]; [lia|].
  destruct (Z.gtb_spec e 971) as [|_]; [lia|]. reflexivity.
Qed.

Lemma float_valido_Fin (s : bool) (m e : Z) :
  float_valido (Fin s m e) = true ->
  0 <= m < 2 ^ 53 /\ emin <= e <= emax /\ (e = emin \/ 2 ^ 52 <= m).
Proof.
  unfold float_valido, prec. change (2 ^ (53 - 1)) with (2 ^ 52).
  intros H. repeat (apply andb_true_iff in H as [H ?]).
  apply orb_true_iff in H0.
  repeat split; lia.
Qed.

(** The subunit count of a difference that is a zero. *)
Lemma centavos_de_zero (s : bool) :
  (prod ← num_mul (Float (Fin s 0 emin)) (Int 100);
   r ← num_round prod; num_int (Int r)) = Ok 0.
Proof. destruct s; vm_compute; reflexivity. Qed.

(** The subunit count of a difference of magnitude at most one. *)
Lemma centavos_de_fracao (s : bool) (m1 e1 : Z) :
  e1 < 0 -> 0 <= m1 <= 1 * 2 ^ (- e1) ->
  exists c : Z,
    (prod ← num_mul (Float (Fin s m1 e1)) (Int 100);
     r ← num_round prod; num_int (Int r)) = Ok c
    /\ (if s then -100 <= c <= 0 else 0 <= c <= 100).
Proof.
  intros He1 Hm1.
  assert (0 < 2 ^ (- e1)) as Hp by (apply Z.pow_pos_nonneg; lia).
  unfold num_mul, num_arith, as_float.
  change (float_of_int_checked 100)
    with (Ok (Fin false 7036874417766400 (-46)) : result float).
  bind_ok. unfold float_mul, mag_num, mag_den.
  destruct (Z.leb_spec 0 e1) as [|_]; [lia|].
  change (0 <=? -46) with false. cbv iota.
  change (2 ^ (- -46)) with 70368744177664.
  destruct (round_ratio_limitado (xorb s false) (m1 * 7036874417766400)
              (2 ^ (- e1) * 70368744177664) 100)
    as (m2 & e2 & -> & He2 & Hm2); [nia|nia|
      change (2 ^ 51) with 2251799813685248; lia|nia|].
  rewrite xorb_false_r. unfold num_round, round_float, num_int.
  unfold mag_num, mag_den.
  destruct (Z.leb_spec 0 e2) as [|_]; [lia|].
  assert (0 < 2 ^ (- e2)) as Hp2 by (apply Z.pow_pos_nonneg; lia).
  pose proof (div_half_even_bounds m2 (2 ^ (- e2)) 100 ltac:(lia) Hp2
                ltac:(lia)) as Hq.
  eexists. split; [reflexivity|]. destruct s; lia.
Qed.

Lemma mag_den_pos (e : Z) : 0 < mag_den e.
Proof.
  unfold mag_den. destruct (Z.leb_spec 0 e); [lia|].
  apply Z.pow_pos_nonneg; lia.
Qed.

Lemma bind_Ok {A B : Type} (a : A) (k : A -> result B) :
  (x ← Ok a; k x) = k a.
Proof. reflexivity. Qed.

(** The difference of two finite floats of which the second is, in
    magnitude, at most the first and at most one less, and has the sign
    of the first unless it is a zero: it is a zero, or it has the sign
    of the first and a magnitude of at most one. *)
Lemma float_sub_limitado (s t : bool) (m e k f : Z) :
  0 <= m -> 0 <= k ->
  t = s \/ mag_num k f = 0 ->
  mag_num k f * mag_den e <= mag_num m e * mag_den f ->
  mag_num m e * mag_den f - mag_num k f * mag_den e
    <= mag_den e * mag_den f ->
  (exists s' : bool, float_sub (Fin s m e) (Fin t k f) = Fin s' 0 emin)
  \/ (exists m1 e1 : Z,
         float_sub (Fin s m e) (Fin t k f) = Fin s m1 e1
         /\ e1 < 0 /\ 0 <= m1 <= 1 * 2 ^ (- e1)).
Proof.
  intros Hm Hk Hsign Hle Hdiff.
  pose proof (mag_den_pos e) as HD. pose proof (mag_den_pos f) as HF.
  unfold float_sub, float_neg, float_add. cbv zeta.
  set (z := signed_num s m e * mag_den f
            + signed_num (negb t) k f * mag_den e).
  assert (z = (if s then -1 else 1)
              * (mag_num m e * mag_den f - mag_num k f * mag_den e)) as Hz.
  { unfold z, signed_num. destruct Hsign as [->|H0].
    - destruct s; cbn [negb]; lia.
    - rewrite H0. destruct s, t; cbn [negb]; lia. }
  set (A := mag_num m e * mag_den f - mag_num k f * mag_den e) in *.
  destruct (Z.eqb_spec z 0) as [_|Hz0].
  - left. eexists. reflexivity.
  - right.
    assert ((z <? 0) = s) as ->.
    { destruct s; [apply Z.ltb_lt|apply Z.ltb_ge]; lia. }
    assert (Z.abs z = A) as -> by (destruct s; lia).
    apply round_ratio_limitado; [lia|nia|
      change (2 ^ 51) with 2251799813685248; lia|lia].
Qed.

(** The integer part of a finite float and its difference to the float. *)
Lemma parte_fracionaria (s : bool) (m e : Z) :
  float_valido (Fin s m e) = true ->
  exists (i : Z) (y : float),
    parte_inteira (Fin s m e) = Ok i
    /\ (if s then i <= 0 else 0 <= i)
    /\ float_of_int_checked i = Ok y
    /\ ((exists s' : bool, float_sub (Fin s m e) y = Fin s' 0 emin)
        \/ (exists m1 e1 : Z,
               float_sub (Fin s m e) y = Fin s m1 e1
               /\ e1 < 0 /\ 0 <= m1 <= 1 * 2 ^ (- e1))).
Proof.
  intros Hv. apply float_valido_Fin in Hv as (Hm & He & Hn).
  unfold emin, emax in He, Hn.
  unfold parte_inteira, int_of_float. cbv zeta.
  set (q := mag_num m e / mag_den e).
  pose proof (mag_den_pos e) as HD.
  assert (0 <= mag_num m e) as HA.
  { unfold mag_num. destruct (Z.leb_spec 0 e); [|lia].
    assert (0 < 2 ^ e) by (apply Z.pow_pos_nonneg; lia). nia. }
  assert (0 <= q) as Hq by (apply Z.div_pos; lia).
  exists (if s then - q else q).
  assert (((if s then - q else q) <? 0) = (if 0 <? q then s else false))
    as Hsgn.
  { destruct s, (Z.ltb_spec 0 q); try (apply Z.ltb_lt; lia);
      apply Z.ltb_ge; lia. }
  assert (Z.abs (if s then - q else q) = q) as Habs by (destruct s; lia).
  unfold float_of_int_checked, float_of_int. rewrite Hsgn, Habs.
  destruct (Z.leb_spec 0 e) as [He0|He0].
  - (* an integer of [2^52] or more *)
    assert (2 ^ 52 <= m) as Hm52 by (destruct Hn; [lia|assumption]).
    assert (q = m * 2 ^ e) as Eq.
    { unfold q, mag_num, mag_den.
      destruct (Z.leb_spec 0 e); [|lia]. apply Z.div_1_r. }
    assert (0 < q) as Hq0.
    { rewrite Eq. assert (0 < 2 ^ e) by (apply Z.pow_pos_nonneg; lia).
      change (2 ^ 52) with 4503599627370496 in Hm52. nia. }
    destruct (Z.ltb_spec 0 q); [|lia].
    rewrite Eq, round_ratio_grande by (unfold emax; lia).
    exists (Fin s m e). split; [reflexivity|].
    split; [destruct s; lia|]. split; [reflexivity|].
    apply float_sub_limitado; [lia|lia|left; reflexivity|lia|].
    pose proof (mag_den_pos e). nia.
  - (* a magnitude below [2^53] *)
    assert (mag_num m e = m /\ mag_den e = 2 ^ (- e)) as [EA ED].
    { unfold mag_num, mag_den. destruct (Z.leb_spec 0 e); [lia|]. tauto. }
    pose proof (Z.div_mod m (2 ^ (- e)) ltac:(lia)) as Hdm.
    pose proof (Z.mod_pos_bound m (2 ^ (- e)) ltac:(lia)) as Hr.
    fold q in Hdm. assert (q = m / 2 ^ (- e)) as Eq
      by (unfold q; rewrite EA, ED; reflexivity).
    rewrite <- Eq in Hdm.
    destruct (Z.ltb_spec 0 q) as [Hq0|Hq0].
    + assert (q < 2 ^ 53) as Hq53 by nia.
      rewrite round_ratio_inteiro by lia.
      destruct (mag_inteiro q ltac:(lia)) as [Ek HF]. cbv zeta in Ek, HF.
      eexists. split; [reflexivity|].
      split; [destruct s; lia|]. split; [reflexivity|].
      apply float_sub_limitado;
        [lia| |left; reflexivity|rewrite Ek, EA, ED; nia|
         rewrite Ek, EA, ED; nia].
      assert (0 < 2 ^ (52 - Z.log2 q)).
      { apply Z.pow_pos_nonneg; [lia|].
        assert (Z.log2 q < 53) by (apply Z.log2_lt_pow2; lia). lia. }
      nia.
    + assert (q = 0) as Eq0 by lia. rewrite Eq0 in *.
      change (round_ratio false 0 1) with (Fin false 0 emin).
      eexists. split; [reflexivity|].
      split; [destruct s; lia|]. split; [reflexivity|].
      pose proof (mag_den_pos emin) as HDm.
      apply float_sub_limitado;
        [lia|lia|right; reflexivity|
         change (mag_num 0 emin) with 0; nia|
         change (mag_num 0 emin) with 0; rewrite EA, ED; nia].
Qed.

(** The two parts of a finite amount: no step of the arithmetic raises,
    and the parts have the sign of the amount. *)
Lemma partes_limites (s : bool) (m e : Z) :
  float_valido (Fin s m e) = true ->
  exists i c : Z,
    parte_inteira (Fin s m e) = Ok i
    /\ parte_centavos (Fin s m e) i = Ok c
    /\ (if s then i <= 0 /\ -100 <= c <= 0 else 0 <= i /\ 0 <= c <= 100).
Proof.
  intros Hv.
  destruct (parte_fracionaria s m e Hv) as (i & y & Hi & Hsi & Hy & Hd).
  exists i.
  assert (forall d : float,
             float_sub (Fin s m e) y = d ->
             parte_centavos (Fin s m e) i =
               (prod ← num_mul (Float d) (Int 100);
                r ← num_round prod; num_int (Int r))) as Hpc.
  { intros d Ed. unfold parte_centavos, num_sub, num_arith, as_float.
    rewrite Hy, !bind_Ok, Ed. reflexivity. }
  destruct Hd as [(s' & Ed)|(m1 & e1 & Ed & He1 & Hm1)].
  - exists 0. split; [exact Hi|]. split.
    + rewrite (Hpc _ Ed). apply centavos_de_zero.
    + destruct s; lia.
  - destruct (centavos_de_fracao s m1 e1 He1 Hm1) as (c & Hc & Hrange).
    exists c. split; [exact Hi|]. split.
    + rewrite (Hpc _ Ed). exact Hc.
    + destruct s; lia.
Qed.

Lemma parte_nao_vazia (ext moeda : pystr) : ext ++ py " " ++ moeda <> [].
Proof.
  intros H. apply List.app_eq_nil in H as [_ H].
  apply List.app_eq_nil in H as [H _]. vm_compute in H. discriminate H.
Qed.

Lemma join_nao_vazio (sep p : pystr) (rest : list pystr) :
  p <> [] -> join sep (p :: rest) <> [].
Proof.
  intros Hp. destruct rest as [|p' rest]; [exact Hp|].
  change (join sep (p :: p' :: rest)) with (p ++ sep ++ join sep (p' :: rest)).
  intros H. apply List.app_eq_nil in H as [H _]. exact (Hp H).
Qed.

(** A finite float less itself is the positive zero. *)
Lemma float_sub_mesmo (s : bool) (m e : Z) :
  float_sub (Fin s m e) (Fin s m e) = Fin false 0 emin.
Proof.
  unfold float_sub, float_neg, float_add, signed_num. cbv zeta.
  generalize (mag_num m e), (mag_den e). intros A F.
  destruct s; cbn [negb andb];
    match goal with
    | |- (if ?z =? 0 then _ else _) = _ => replace z with 0 by lia
    end; reflexivity.
Qed.

(** [partes_de] gives parts that are not empty, or raises what
    [num2words] raised on a positive part. *)
Lemma partes_de_casos (num2words : Z -> result pystr) (i c : Z) :
  (exists ps : list pystr,
      partes_de num2words i c = Ok ps /\ Forall (fun p => p <> []) ps)
  \/ (exists x : exn,
         partes_de num2words i c = Raise x
         /\ ((0 < i /\ num2words i = Raise x)
             \/ (0 < c /\ num2words c = Raise x))).
Proof.
  unfold partes_de.
  destruct (Z.ltb_spec 0 i) as [Hi|Hi].
  - destruct (num2words i) as [wi|x] eqn:Ei.
    + rewrite bind_Ok. cbv zeta. rewrite bind_Ok.
      destruct (Z.ltb_spec 0 c) as [Hc|Hc].
      * destruct (num2words c) as [wc|x] eqn:Ec.
        -- left. eexists. split; [reflexivity|].
           repeat first [apply parte_nao_vazia|apply Forall_app_2
                        |constructor].
        -- right. exists x. split; [reflexivity|]. right. split; auto.
      * left. eexists. split; [reflexivity|].
        repeat first [apply parte_nao_vazia|constructor].
    + right. exists x. split; [reflexivity|]. left. split; auto.
  - rewrite bind_Ok.
    destruct (Z.ltb_spec 0 c) as [Hc|Hc].
    + destruct (num2words c) as [wc|x] eqn:Ec.
      * left. eexists. split; [reflexivity|].
        repeat first [apply parte_nao_vazia|constructor].
      * right. exists x. split; [reflexivity|]. right. split; auto.
    + left. exists []. split; [reflexivity|]. constructor.
Qed.

(** X21. A negative amount is written "zero reais": for every finite
    negative float the integer part and the subunit count are not
    positive, so that neither part is written. *)
Theorem valor_negativo_zero_reais :
  forall (float_of_str : pystr -> option float)
         (num2words : Z -> result pystr) (value : pystr) (m e : Z),
    float_of_str value = Some (Fin true m e) ->
    float_valido (Fin true m e) = true ->
    valor_por_extenso float_of_str num2words value = Ok (py "zero reais").
Proof.
  intros float_of_str num2words value m e Hv Hok.
  destruct (partes_limites true m e Hok) as (i & c & Hi & Hc & Hi0 & Hc0).
  unfold valor_por_extenso. rewrite Hv, Hi, bind_Ok, Hc, bind_Ok.
  rewrite (partes_de_nenhuma num2words i c) by lia. reflexivity.
Qed.

Lemma valor_negativo_zero_reais_witness :
  valor_por_extenso float_ascii num2words_ate_999 (py "-12.34")
  = Ok (py "zero reais").
Proof.
  apply (valor_negativo_zero_reais float_ascii num2words_ate_999
           (py "-12.34") 6946802425218990 (-49));
    vm_compute; reflexivity.
Defined.

(** X22. On a finite amount no step of the arithmetic of
    [valor_por_extenso] raises: the integer part and the subunit count
    have the sign of the amount, the count is at most 100 in magnitude,
    and the result is a text that is not empty unless [num2words] raises
    on a positive part, whose exception is then the one raised. *)
Theorem valor_finito_sem_falha_aritmetica :
  forall (float_of_str : pystr -> option float)
         (num2words : Z -> result pystr) (value : pystr)
         (s : bool) (m e : Z),
    float_of_str value = Some (Fin s m e) ->
    float_valido (Fin s m e) = true ->
    exists i c : Z,
      parte_inteira (Fin s m e) = Ok i
      /\ parte_centavos (Fin s m e) i = Ok c
      /\ (if s then i <= 0 /\ -100 <= c <= 0 else 0 <= i /\ 0 <= c <= 100)
      /\ ((exists w : pystr,
              valor_por_extenso float_of_str num2words value = Ok w
              /\ w <> [])
          \/ (exists x : exn,
                 valor_por_extenso float_of_str num2words value = Raise x
                 /\ ((0 < i /\ num2words i = Raise x)
                     \/ (0 < c /\ num2words c = Raise x)))).
Proof.
  intros float_of_str num2words value s m e Hv Hok.
  destruct (partes_limites s m e Hok) as (i & c & Hi & Hc & Hrange).
  exists i, c. split; [exact Hi|]. split; [exact Hc|].
  split; [exact Hrange|].
  unfold valor_por_extenso. rewrite Hv, Hi, bind_Ok, Hc, bind_Ok.
  destruct (partes_de_casos num2words i c)
    as [(ps & -> & Hps)|(x & -> & Hx)].
  - left. rewrite bind_Ok. destruct ps as [|p rest].
    + eexists. split; [reflexivity|].
      intros H. vm_compute in H. discriminate H.
    + eexists. split; [reflexivity|].
      apply join_nao_vazio. apply Forall_cons in Hps as [Hp _]. exact Hp.
  - right. exists x. split; [reflexivity|exact Hx].
Qed.

Lemma valor_finito_sem_falha_aritmetica_witness :
  exists i c : Z,
    parte_inteira (Fin false 5626684784446013 (-48)) = Ok i
    /\ parte_centavos (Fin false 5626684784446013 (-48)) i = Ok c
    /\ 0 <= i /\ 0 <= c <= 100.
Proof.
  destruct (valor_finito_sem_falha_aritmetica float_ascii num2words_ate_999
              (py "19.99") false 5626684784446013 (-48))
    as (i & c & Hi & Hc & (Hi0 & Hc0) & _);
    [vm_compute; reflexivity|vm_compute; reflexivity|].
  exists i, c. split; [exact Hi|]. split; [exact Hc|].
  split; [exact Hi0|exact Hc0].
Defined.

(** X23. A whole amount below [2^53] has no subunit part: when [float]
    reads the amount as the float of the integer [n], the result is the
    words of [n] followed by "real" for one and by "reais" otherwise,
    and [num2words] is called on [n] only. *)
Theorem valor_inteiro_sem_centavos :
  forall (float_of_str : pystr -> option float)
         (num2words : Z -> result pystr) (value : pystr) (n : Z),
    0 < n < 2 ^ 53 ->
    float_of_str value = Some (float_of_int n) ->
    parte_inteira (float_of_int n) = Ok n
    /\ parte_centavos (float_of_int n) n = Ok 0
    /\ valor_por_extenso float_of_str num2words value =
         (ext ← num2words n;
          Ok (ext ++ py " " ++ (if n =? 1 then py "real" else py "reais"))).
Proof.
  intros float_of_str num2words value n Hn Hv.
  assert (float_of_int n
          = Fin false (n * 2 ^ (52 - Z.log2 n)) (Z.log2 n - 52)) as Ef.
  { unfold float_of_int.
    destruct (Z.ltb_spec n 0) as [|_]; [lia|].
    rewrite Z.abs_eq by lia. apply round_ratio_inteiro. exact Hn. }
  destruct (mag_inteiro n Hn) as [Ek HF]. cbv zeta in Ek, HF.
  assert (parte_inteira (float_of_int n) = Ok n) as Hi.
  { rewrite Ef. unfold parte_inteira, int_of_float. cbv zeta.
    rewrite Ek, Z.div_mul by lia. reflexivity. }
  assert (parte_centavos (float_of_int n) n = Ok 0) as Hc.
  { unfold parte_centavos, num_sub, num_arith, as_float.
    unfold float_of_int_checked. rewrite Ef, !bind_Ok.
    rewrite float_sub_mesmo.
    apply centavos_de_zero. }
  split; [exact Hi|]. split; [exact Hc|].
  unfold valor_por_extenso. rewrite Hv, Hi, bind_Ok, Hc, bind_Ok.
  unfold partes_de.
  destruct (Z.ltb_spec 0 n) as [_|]; [|lia].
  change (0 <? 0) with false. cbv iota.
  destruct (num2words n) as [ext|x]; reflexivity.
Qed.

Lemma valor_inteiro_sem_centavos_witness :
  valor_por_extenso float_ascii num2words_ate_999 (py "3")
  = Ok (py "três reais").
Proof.
  destruct (valor_inteiro_sem_centavos float_ascii num2words_ate_999
              (py "3") 3) as (_ & _ & ->);
    [change (2 ^ 53) with 9007199254740992; lia
    |vm_compute; reflexivity
    |vm_compute; reflexivity].
Defined.
